(** * Map.tsx: location, discovery and route resolution

    A shallow embedding of the logic of [src/components/Map.tsx]: the
    Haversine distance, the three-tier discovery of nearby places, the
    geolocation callbacks, the destination handlers, the route resolver
    with its straight-line fallback, and the effects and map events that
    call them.

    Conventions of the embedding.
    - A JavaScript number is a real number ([R]); [Math.sin], [Math.cos],
      [Math.sqrt], [Math.PI] are the real functions and constant.  Rounding
      of IEEE doubles, NaN and the infinities are outside the model.
    - [null]/[undefined] are [None]; a value that may be absent is an
      [option].
    - The React state variables of the component form the record [State];
      a handler is a function from the state it runs in (and the outcome of
      the requests it awaits) to the state after its setters are applied.
    - [Math.random()] is an oracle [rnd : nat -> R]: [rnd k] is what the
      k-th call made by the function returns.
    - The geodesic library (turf) is not part of the repository: its three
      operations used here form the record [Turf]. *)

From Stdlib Require Import Reals Lra Lia ZArith List String Ascii Bool.
From Stdlib Require Import DecimalString Sorting.Sorted Sorting.Permutation Machin.
Import ListNotations.

Open Scope R_scope.

(** ** JavaScript primitives *)

Module JS.

(** [Math.floor], as an integer. *)
Definition Math_floor (x : R) : Z := Zfloor x.

(** [Math.round]: the nearest integer, a tie going up. *)
Definition Math_round (x : R) : Z := Zfloor (x + / 2).

(** [Math.max] of an integer constant and an integer. *)
Definition Math_max (a b : Z) : Z := Z.max a b.

(** [Math.atan2(y, x)]. *)
Definition Math_atan2 (y x : R) : R :=
  match total_order_T x 0 with
  | inleft (left _) => if Rle_dec 0 y then atan (y / x) + PI else atan (y / x) - PI
  | inleft (right _) =>
      match total_order_T y 0 with
      | inleft (left _) => - (PI / 2)
      | inleft (right _) => 0
      | inright _ => PI / 2
      end
  | inright _ => atan (y / x)
  end.

(** Truncation toward zero and the remainder operator [x % y]. *)
Definition trunc (x : R) : Z := if Rle_dec 0 x then Zfloor x else Zceil x.

Definition rem (x y : R) : R := x - y * IZR (trunc (x / y)).

(** Decimal numeral of an integer, as template literals print it. *)
Definition string_of_Z (z : Z) : string := NilZero.string_of_int (Z.to_int z).

(** [x.toFixed(1)]: sign, integer part, one rounded fractional digit. *)
Definition toFixed1 (x : R) : string :=
  let n := Zfloor (Rabs x * 10 + / 2) in
  ((if Rlt_dec x 0 then "-"%string else EmptyString)
     ++ string_of_Z (n / 10) ++ "." ++ string_of_Z (n mod 10))%string.

(** A string is truthy when it is not empty; an absent one is falsy. *)
Definition truthy (o : option string) : bool :=
  match o with
  | Some EmptyString | None => false
  | Some _ => true
  end.

(** [a || b] on optional strings: [a] when truthy, else [b]. *)
Definition or_else (a b : option string) : option string :=
  if truthy a then a else b.

(** [a || 'literal']. *)
Definition or_default (a : option string) (d : string) : string :=
  match a with
  | Some EmptyString | None => d
  | Some s => s
  end.

(** A number is truthy when it is present and not zero. *)
Definition num_or (a : option R) (b : R) : R :=
  match a with
  | Some r => if Req_dec_T r 0 then b else r
  | None => b
  end.

(** [s.split(',')[0]]: the characters before the first comma. *)
Fixpoint first_segment (s : string) : string :=
  match s with
  | EmptyString => EmptyString
  | String c rest =>
      if Ascii.eqb c ","%char then EmptyString else String c (first_segment rest)
  end.

(** [c.toUpperCase()] on one character (the ASCII letters). *)
Definition upper_char (c : ascii) : ascii :=
  let n := nat_of_ascii c in
  if (97 <=? n)%nat && (n <=? 122)%nat then ascii_of_nat (n - 32) else c.

(** [s.charAt(0).toUpperCase() + s.slice(1)]. *)
Definition capitalize (s : string) : string :=
  match s with
  | EmptyString => EmptyString
  | String c rest => String (upper_char c) rest
  end.

(** [arr[Math.floor(r * 3)]] on a three-element array literal. *)
Definition pick3 (arr : list string) (r : R) : option string :=
  let k := Math_floor (r * 3) in
  if (k <? 0)%Z then None else nth_error arr (Z.to_nat k).

End JS.

(** ** Coordinates and the Haversine distance *)

(** A GeoJSON position, [[lon, lat]]. *)
Definition Position : Type := (R * R)%type.

(** A Leaflet position, [[lat, lon]]. *)
Definition LatLng : Type := (R * R)%type.

Definition calculateDistance (lat1 lon1 lat2 lon2 : R) : R :=
  let R_earth := 6371 in
  let dLat := (lat2 - lat1) * PI / 180 in
  let dLon := (lon2 - lon1) * PI / 180 in
  let a :=
    sin (dLat / 2) * sin (dLat / 2) +
    cos (lat1 * PI / 180) * cos (lat2 * PI / 180) *
    sin (dLon / 2) * sin (dLon / 2) in
  let c := 2 * JS.Math_atan2 (sqrt a) (sqrt (1 - a)) in
  R_earth * c.

(** ** The geodesic library *)

(** [turf.lineString([a, b])]: the component only builds two-vertex lines. *)
Definition LineString : Type := (Position * Position)%type.

(** The operations of the library the component calls, all in kilometres:
    [turf.length(line)], [turf.along(line, dist)] and
    [turf.destination(point, dist, bearing)]. *)
Record Turf : Type := {
  turf_length : LineString -> R;
  turf_along : LineString -> R -> Position;
  turf_destination : Position -> R -> R -> Position
}.

(** What the route fallback relies on: walking no distance stays on the
    first vertex, and walking the whole length of a line that has some
    length arrives on the last one. *)
Definition along_reaches_ends (T : Turf) : Prop :=
  (forall l, turf_along T l 0 = fst l) /\
  (forall l, 0 < turf_length T l -> turf_along T l (turf_length T l) = snd l).

(** The library on its documented sphere: Haversine distance, initial
    bearing and destination point on a sphere of mean radius 6371.0088 km,
    angles reduced with [%] as its conversion helpers do. *)
Module Sphere.

Definition earthRadiusKm : R := 6371.0088.

Definition degreesToRadians (d : R) : R := JS.rem d 360 * PI / 180.

Definition radiansToDegrees (r : R) : R := JS.rem r (2 * PI) * 180 / PI.

Definition distance (p q : Position) : R :=
  let dLat := degreesToRadians (snd q - snd p) in
  let dLon := degreesToRadians (fst q - fst p) in
  let lat1 := degreesToRadians (snd p) in
  let lat2 := degreesToRadians (snd q) in
  let a :=
    sin (dLat / 2) ^ 2 + sin (dLon / 2) ^ 2 * cos lat1 * cos lat2 in
  (2 * JS.Math_atan2 (sqrt a) (sqrt (1 - a))) * earthRadiusKm.

Definition bearing (p q : Position) : R :=
  let lon1 := degreesToRadians (fst p) in
  let lon2 := degreesToRadians (fst q) in
  let lat1 := degreesToRadians (snd p) in
  let lat2 := degreesToRadians (snd q) in
  let a := sin (lon2 - lon1) * cos lat2 in
  let b := cos lat1 * sin lat2 - sin lat1 * cos lat2 * cos (lon2 - lon1) in
  radiansToDegrees (JS.Math_atan2 a b).

Definition destination (p : Position) (dist bearingDeg : R) : Position :=
  let lon1 := degreesToRadians (fst p) in
  let lat1 := degreesToRadians (snd p) in
  let b := degreesToRadians bearingDeg in
  let r := dist / earthRadiusKm in
  let lat2 := asin (sin lat1 * cos r + cos lat1 * sin r * cos b) in
  let lon2 :=
    lon1 + JS.Math_atan2 (sin b * sin r * cos lat1)
                         (cos r - sin lat1 * sin lat2) in
  (radiansToDegrees lon2, radiansToDegrees lat2).

(** The length of a two-vertex line is the distance between its vertices. *)
Definition length (l : LineString) : R := distance (fst l) (snd l).

(** The walk along a two-vertex line.  At the first vertex nothing has been
    travelled: a distance of zero returns it.  Otherwise the segment is
    added; on the last vertex a distance not short of what was travelled
    returns that vertex, and a shorter one is interpolated backwards from
    it.  (A negative distance makes the library raise; the first vertex
    stands for that case.) *)
Definition along (l : LineString) (dist : R) : Position :=
  if Rle_dec dist 0 then fst l
  else
    let travelled := distance (fst l) (snd l) in
    if Rle_dec travelled dist then snd l
    else destination (snd l) (dist - travelled) (bearing (snd l) (fst l) - 180).

Definition turf : Turf :=
  {| turf_length := length; turf_along := along; turf_destination := destination |}.

End Sphere.

(** ** Data of the component *)

(** The selected destination: a geocoder record, or the reverse-geocoded
    record of a map click.  [loc_lat] and [loc_lon] hold the numbers that
    [parseFloat] reads from the record's fields. *)
Record Location : Type := {
  loc_place_id : option Z;
  loc_display_name : string;
  loc_lat : R;
  loc_lon : R
}.

Record Step : Type := {
  step_instruction : string;
  step_distance : Z
}.

Record Route : Type := {
  route_coordinates : list Position;
  route_duration : Z;
  route_distance : string;
  route_steps : list Step
}.

(** The [id] of a recommendation: a service identifier or a template
    string. *)
Inductive PlaceId : Type :=
| IdNum (n : Z)
| IdStr (s : string).

(** A recommendation (point of interest).  [place_location] is
    [{lat, lon}]. *)
Record Place : Type := {
  place_id : PlaceId;
  place_name : string;
  place_description : string;
  place_image : string;
  place_rating : string;
  place_crowdLevel : option string;
  place_bestTime : option string;
  place_category : option string;
  place_location : LatLng;
  place_distance : R
}.

Record Achievement : Type := {
  ach_title : string;
  ach_description : string;
  ach_points : Z
}.

(** The view last requested from the Leaflet map. *)
Inductive MapView : Type :=
| Untouched
| SetView (center : LatLng) (zoom : Z)
| FitBounds (points : list LatLng).

(** The state variables of [Map] that the modelled functions read or
    write.  [mapRef] is [mapRef.current]: absent, or the map with its
    view. *)
Record State : Type := {
  position : LatLng;
  showRecommendations : bool;
  selectedLocation : option Location;
  route : option Route;
  transportMode : string;
  userLocation : option LatLng;
  recommendations : list Place;
  achievement : option Achievement;
  locationError : option string;
  isLoadingLocation : bool;
  mapRef : option MapView
}.

Definition setPosition (v : LatLng) (s : State) : State :=
  {| position := v; showRecommendations := showRecommendations s;
     selectedLocation := selectedLocation s; route := route s;
     transportMode := transportMode s; userLocation := userLocation s;
     recommendations := recommendations s; achievement := achievement s;
     locationError := locationError s;
     isLoadingLocation := isLoadingLocation s; mapRef := mapRef s |}.

Definition setShowRecommendations (v : bool) (s : State) : State :=
  {| position := position s; showRecommendations := v;
     selectedLocation := selectedLocation s; route := route s;
     transportMode := transportMode s; userLocation := userLocation s;
     recommendations := recommendations s; achievement := achievement s;
     locationError := locationError s;
     isLoadingLocation := isLoadingLocation s; mapRef := mapRef s |}.

Definition setSelectedLocation (v : option Location) (s : State) : State :=
  {| position := position s; showRecommendations := showRecommendations s;
     selectedLocation := v; route := route s;
     transportMode := transportMode s; userLocation := userLocation s;
     recommendations := recommendations s; achievement := achievement s;
     locationError := locationError s;
     isLoadingLocation := isLoadingLocation s; mapRef := mapRef s |}.

Definition setRoute (v : option Route) (s : State) : State :=
  {| position := position s; showRecommendations := showRecommendations s;
     selectedLocation := selectedLocation s; route := v;
     transportMode := transportMode s; userLocation := userLocation s;
     recommendations := recommendations s; achievement := achievement s;
     locationError := locationError s;
     isLoadingLocation := isLoadingLocation s; mapRef := mapRef s |}.

Definition setUserLocation (v : option LatLng) (s : State) : State :=
  {| position := position s; showRecommendations := showRecommendations s;
     selectedLocation := selectedLocation s; route := route s;
     transportMode := transportMode s; userLocation := v;
     recommendations := recommendations s; achievement := achievement s;
     locationError := locationError s;
     isLoadingLocation := isLoadingLocation s; mapRef := mapRef s |}.

Definition setRecommendations (v : list Place) (s : State) : State :=
  {| position := position s; showRecommendations := showRecommendations s;
     selectedLocation := selectedLocation s; route := route s;
     transportMode := transportMode s; userLocation := userLocation s;
     recommendations := v; achievement := achievement s;
     locationError := locationError s;
     isLoadingLocation := isLoadingLocation s; mapRef := mapRef s |}.

Definition setAchievement (v : option Achievement) (s : State) : State :=
  {| position := position s; showRecommendations := showRecommendations s;
     selectedLocation := selectedLocation s; route := route s;
     transportMode := transportMode s; userLocation := userLocation s;
     recommendations := recommendations s; achievement := v;
     locationError := locationError s;
     isLoadingLocation := isLoadingLocation s; mapRef := mapRef s |}.

Definition setLocationError (v : option string) (s : State) : State :=
  {| position := position s; showRecommendations := showRecommendations s;
     selectedLocation := selectedLocation s; route := route s;
     transportMode := transportMode s; userLocation := userLocation s;
     recommendations := recommendations s; achievement := achievement s;
     locationError := v;
     isLoadingLocation := isLoadingLocation s; mapRef := mapRef s |}.

Definition setIsLoadingLocation (v : bool) (s : State) : State :=
  {| position := position s; showRecommendations := showRecommendations s;
     selectedLocation := selectedLocation s; route := route s;
     transportMode := transportMode s; userLocation := userLocation s;
     recommendations := recommendations s; achievement := achievement s;
     locationError := locationError s;
     isLoadingLocation := v; mapRef := mapRef s |}.

(** [if (mapRef.current) { ... map.setView / map.fitBounds ... }]: the view
    changes only when the map is mounted. *)
Definition withMap (v : MapView) (s : State) : State :=
  {| position := position s; showRecommendations := showRecommendations s;
     selectedLocation := selectedLocation s; route := route s;
     transportMode := transportMode s; userLocation := userLocation s;
     recommendations := recommendations s; achievement := achievement s;
     locationError := locationError s;
     isLoadingLocation := isLoadingLocation s;
     mapRef := match mapRef s with Some _ => Some v | None => None end |}.

(** ** Requests and their outcomes *)

(** What [await response.json()] gives: a rejection, [null], or a value. *)
Inductive Body (A : Type) : Type :=
| NotJson
| JsonNull
| Json (a : A).

Arguments NotJson {A}.
Arguments JsonNull {A}.
Arguments Json {A} a.

(** What [await fetch(url)] gives: a rejection (the request failed), or a
    response with its [ok] flag, status and body. *)
Inductive Fetched (A : Type) : Type :=
| NetworkError
| Replied (ok : bool) (status : Z) (body : Body A).

Arguments NetworkError {A}.
Arguments Replied {A} ok status body.

(** An element of an Overpass reply.  [el_tags] is the tag object, as the
    list of its key/value pairs. *)
Record Element : Type := {
  el_id : Z;
  el_tags : option (list (string * string));
  el_lat : option R;
  el_lon : option R;
  el_center : option LatLng
}.

Record OverpassData : Type := {
  ov_elements : option (list Element)
}.

(** A record of a Nominatim search reply; [nom_lat], [nom_lon] are the
    numbers [parseFloat] reads. *)
Record NominatimPlace : Type := {
  nom_place_id : Z;
  nom_display_name : option string;
  nom_type : option string;
  nom_lat : R;
  nom_lon : R
}.

(** A route of an OSRM reply; [osrm_geometry] is [geometry.coordinates]. *)
Record OsrmRoute : Type := {
  osrm_geometry : option (list Position);
  osrm_duration : R;
  osrm_distance : R
}.

Record OsrmData : Type := {
  osrm_code : option string;
  osrm_routes : option (list OsrmRoute)
}.

(** The outcome of [navigator.geolocation]: no such API, a position, or
    the error callback with its [message]. *)
Inductive Geolocation : Type :=
| GeoUnsupported
| GeoPosition (lat lon : R)
| GeoError (message : string).

(** An asynchronous call a function starts without awaiting it. *)
Inductive Effect : Type :=
| FetchNearbyPlacesCall (lat lon : R).

(** The property [tags.key], [None] when the tag object has none. *)
Fixpoint tag (key : string) (tags : list (string * string)) : option string :=
  match tags with
  | [] => None
  | (k, v) :: rest => if String.eqb k key then Some v else tag key rest
  end.

Definition placeImage : string :=
  "https://images.unsplash.com/photo-1564507592333-c60657eea523?auto=format&fit=crop&q=80&w=300".

Definition crowdLevels : list string := ["Less crowded"; "Moderate"; "Busy"]%string.

Definition bestTimes : list string := ["Morning"; "Afternoon"; "Evening"]%string.

(** ** Discovery of nearby places *)

(** [Array.prototype.sort] with a numeric comparator: a stable sort;
    [x] stays ahead of [y] when [cmp x y <= 0]. *)
Fixpoint sort_insert {A : Type} (cmp : A -> A -> R) (x : A) (l : list A) : list A :=
  match l with
  | [] => [x]
  | y :: rest =>
      if Rle_dec (cmp x y) 0 then x :: y :: rest
      else y :: sort_insert cmp x rest
  end.

Definition array_sort {A : Type} (cmp : A -> A -> R) (l : list A) : list A :=
  fold_right (sort_insert cmp) [] l.

(** [(a, b) => a.distance - b.distance]. *)
Definition byDistance (a b : Place) : R := place_distance a - place_distance b.

Section Discovery.

Variable T : Turf.

(** *** Tier 3: [createMockPlaces] *)

Definition mockNames : list string :=
  ["Central Park"; "Museum of Art"; "Historic Tower"; "Botanical Garden"; "City Square"]%string.

Definition mockDescriptions : list string :=
  ["Nature"; "Cultural"; "Historical"; "Nature"; "Entertainment"]%string.

Definition mockCategories : list string :=
  ["Park"; "Museum"; "Monument"; "Garden"; "Plaza"]%string.

(** The body of the loop for index [i]; the five draws of the iteration
    are [rnd (5 i)] .. [rnd (5 i + 4)], in the order the body makes them. *)
Definition mockPlace (lat lon : R) (rnd : nat -> R) (i : nat) : Place :=
  let distance := 0.5 + rnd (5 * i)%nat * 4.5 in
  let bearing := rnd (5 * i + 1)%nat * 360 in
  let coordinates := turf_destination T (lon, lat) distance bearing in
  {| place_id := IdStr ("mock-" ++ JS.string_of_Z (Z.of_nat i));
     place_name := nth i mockNames EmptyString;
     place_description := nth i mockDescriptions EmptyString;
     place_image := placeImage;
     place_rating := JS.toFixed1 (rnd (5 * i + 2)%nat * 2 + 3);
     place_crowdLevel := JS.pick3 crowdLevels (rnd (5 * i + 3)%nat);
     place_bestTime := JS.pick3 bestTimes (rnd (5 * i + 4)%nat);
     place_category := nth_error mockCategories i;
     place_location := (snd coordinates, fst coordinates);
     place_distance := distance |}.

(** [for (let i = 0; i < 5; i++) mockPlaces.push(...)]. *)
Definition mockPlaces (lat lon : R) (rnd : nat -> R) : list Place :=
  map (mockPlace lat lon rnd) (seq 0 5).

Definition createMockPlaces (s : State) (lat lon : R) (rnd : nat -> R) : State :=
  setShowRecommendations true (setRecommendations (mockPlaces lat lon rnd) s).

(** *** Tier 2: [fallbackToNominatim] *)

(** The callback of [data.map]; [None] when it raises ([display_name]
    missing).  Its four draws are [rnd (4 k)] .. [rnd (4 k + 3)]. *)
Definition nominatimPlace (lat lon : R) (rnd : nat -> R) (k : nat)
    (place : NominatimPlace) : option Place :=
  let distance := calculateDistance lat lon (nom_lat place) (nom_lon place) in
  match nom_display_name place with
  | None => None
  | Some display_name =>
      Some {| place_id := IdNum (nom_place_id place);
              place_name := JS.first_segment display_name;
              place_description := JS.or_default (nom_type place) "Tourist Attraction";
              place_image := placeImage;
              place_rating := JS.toFixed1 (rnd (4 * k)%nat * 2 + 3);
              place_crowdLevel := JS.pick3 crowdLevels (rnd (4 * k + 1)%nat);
              place_bestTime := JS.pick3 bestTimes (rnd (4 * k + 2)%nat);
              place_category :=
                JS.pick3 ["Historical"; "Cultural"; "Nature"]%string (rnd (4 * k + 3)%nat);
              place_location := (nom_lat place, nom_lon place);
              place_distance := distance |}
  end.

(** [arr.map(f)] for a callback that may raise; [k] is the index of the
    head of [l]. *)
Fixpoint mapFrom {A B : Type} (f : nat -> A -> option B) (k : nat) (l : list A)
    : option (list B) :=
  match l with
  | [] => Some []
  | x :: rest =>
      match f k x with
      | None => None
      | Some y =>
          match mapFrom f (S k) rest with
          | None => None
          | Some ys => Some (y :: ys)
          end
      end
  end.

Definition fallbackToNominatim (s : State) (lat lon : R)
    (reply : Fetched (list NominatimPlace)) (rnd2 rnd3 : nat -> R) : State :=
  match reply with
  | Replied true _ (Json (d :: data)) =>
      match mapFrom (nominatimPlace lat lon rnd2) 0 (d :: data) with
      | Some places =>
          setShowRecommendations true
            (setRecommendations (array_sort byDistance places) s)
      | None => createMockPlaces s lat lon rnd3
      end
  | Replied true _ (Json []) => createMockPlaces s lat lon rnd3
  | Replied true _ JsonNull => createMockPlaces s lat lon rnd3
  | Replied true _ NotJson => createMockPlaces s lat lon rnd3
  | Replied false _ _ => createMockPlaces s lat lon rnd3
  | NetworkError => createMockPlaces s lat lon rnd3
  end.

(** *** Tier 1: [fetchNearbyPlaces] *)

(** The predicate of [data.elements.filter]. *)
Definition retained (element : Element) : bool :=
  match el_tags element with
  | None => false
  | Some tags =>
      JS.truthy (tag "name" tags) || JS.truthy (tag "tourism" tags)
      || JS.truthy (tag "historic" tags) || JS.truthy (tag "amenity" tags)
  end.

(** [(t ? capitalised t : '')]. *)
Definition capitalizedOrEmpty (t : option string) : option string :=
  match t with
  | Some (String c rest) => Some (JS.capitalize (String c rest))
  | _ => Some EmptyString
  end.

(** The callback of [.map((element, index) => ...)]; [None] when it raises
    (no tag object).  Its three draws are [rnd (3 index)] ..
    [rnd (3 index + 2)]. *)
Definition overpassPlace (lat lon : R) (rnd : nat -> R) (index : nat)
    (element : Element) : option Place :=
  match el_tags element with
  | None => None
  | Some tags =>
      let name :=
        JS.or_default
          (JS.or_else
             (JS.or_else
                (JS.or_else (tag "name" tags)
                            (capitalizedOrEmpty (tag "tourism" tags)))
                (capitalizedOrEmpty (tag "historic" tags)))
             (capitalizedOrEmpty (tag "amenity" tags)))
          ("Place " ++ JS.string_of_Z (Z.of_nat index + 1)) in
      let category :=
        JS.or_default
          (JS.or_else (JS.or_else (tag "tourism" tags) (tag "historic" tags))
                      (tag "amenity" tags))
          "Point of Interest" in
      let toLat :=
        JS.num_or (el_lat element)
                  (match el_center element with Some c => fst c | None => lat end) in
      let toLon :=
        JS.num_or (el_lon element)
                  (match el_center element with Some c => snd c | None => lon end) in
      let distance := calculateDistance lat lon toLat toLon in
      Some {| place_id := IdNum (el_id element);
              place_name := name;
              place_description := JS.capitalize category;
              place_image := placeImage;
              place_rating := JS.toFixed1 (rnd (3 * index)%nat * 2 + 3);
              place_crowdLevel := JS.pick3 crowdLevels (rnd (3 * index + 1)%nat);
              place_bestTime := JS.pick3 bestTimes (rnd (3 * index + 2)%nat);
              place_category := Some (JS.capitalize category);
              place_location := (toLat, toLon);
              place_distance := distance |}
  end.

(** [data.elements.filter(...).slice(0, 10)]. *)
Definition retainedElements (elements : list Element) : list Element :=
  firstn 10 (filter retained elements).

(** The second reply and the draws of the later tiers are consulted only
    when the function falls back. *)
Definition fetchNearbyPlaces (s : State) (lat lon : R)
    (overpass : Fetched OverpassData)
    (nominatim : Fetched (list NominatimPlace))
    (rnd1 rnd2 rnd3 : nat -> R) : State :=
  let fallback := fallbackToNominatim s lat lon nominatim rnd2 rnd3 in
  match overpass with
  | Replied true _ (Json data) =>
      match ov_elements data with
      | Some (e :: elements) =>
          match mapFrom (overpassPlace lat lon rnd1) 0
                        (retainedElements (e :: elements)) with
          | Some places =>
              setShowRecommendations true
                (setRecommendations (array_sort byDistance places) s)
          | None => fallback
          end
      | Some [] => fallback
      | None => fallback
      end
  | Replied true _ JsonNull => fallback
  | Replied true _ NotJson => fallback
  | Replied false _ _ => fallback
  | NetworkError => fallback
  end.

(** ** Geolocation: [getUserLocation] *)

Definition defaultLocation : LatLng := (37.7749, -122.4194).

(** What the function does before it asks for the position:
    [setIsLoadingLocation(true); setLocationError(null)]. *)
Definition startLocating (s : State) : State :=
  setLocationError None (setIsLoadingLocation true s).

(** The success callback.  It belongs to the call made in the render of
    state [closure], whose [selectedLocation] it tests, and it runs in the
    state [current], on which its setters act ([mapRef.current] is read
    when the callback runs).  [hasInitialSelectedPlace] is the truthiness
    of the [initialSelectedPlace] property. *)
Definition onPosition (hasInitialSelectedPlace : bool) (closure current : State)
    (latitude longitude : R) : State * list Effect :=
  let newUserLocation := (latitude, longitude) in
  let s1 := setUserLocation (Some newUserLocation) current in
  let s2 :=
    match selectedLocation closure, hasInitialSelectedPlace with
    | None, false => withMap (SetView newUserLocation 13) (setPosition newUserLocation s1)
    | _, _ => s1
    end in
  (setIsLoadingLocation false s2, [FetchNearbyPlacesCall latitude longitude]).

(** The error callback, run in the state [current]; it reads no state. *)
Definition onPositionError (current : State) (message : string) : State * list Effect :=
  let s1 :=
    setLocationError
      (Some ("Location error: " ++ message ++ ". Please enable location services."))%string
      current in
  let s2 := setIsLoadingLocation false s1 in
  let s3 := setUserLocation (Some defaultLocation) s2 in
  let s4 := setPosition defaultLocation s3 in
  let s5 := withMap (SetView defaultLocation 13) s4 in
  (s5, [FetchNearbyPlacesCall (fst defaultLocation) (snd defaultLocation)]).

(** [getUserLocation] called in the state [s], with its request settled
    before anything else happens: the callback runs in the state the call
    left.  Without the geolocation API the function is synchronous.  The
    result is the state after the setters and the discovery started. *)
Definition getUserLocation (hasInitialSelectedPlace : bool) (s : State)
    (outcome : Geolocation) : State * list Effect :=
  let s0 := startLocating s in
  match outcome with
  | GeoPosition latitude longitude =>
      onPosition hasInitialSelectedPlace s s0 latitude longitude
  | GeoError message => onPositionError s0 message
  | GeoUnsupported =>
      let s1 := setLocationError (Some "Geolocation is not supported by this browser"%string) s0 in
      let s2 := setIsLoadingLocation false s1 in
      let s3 := setUserLocation (Some defaultLocation) s2 in
      let s4 := setPosition defaultLocation s3 in
      (s4, [FetchNearbyPlacesCall (fst defaultLocation) (snd defaultLocation)])
  end.

(** The replies and draws a started discovery will meet. *)
Record Services : Type := {
  overpassReply : Fetched OverpassData;
  nominatimReply : Fetched (list NominatimPlace);
  draws1 : nat -> R;
  draws2 : nat -> R;
  draws3 : nat -> R
}.

(** The event loop running a started call to completion. *)
Definition runEffect (env : Services) (s : State) (e : Effect) : State :=
  match e with
  | FetchNearbyPlacesCall lat lon =>
      fetchNearbyPlaces s lat lon (overpassReply env) (nominatimReply env)
                        (draws1 env) (draws2 env) (draws3 env)
  end.

(** ** Route resolution *)

Definition routePlanner : Achievement :=
  {| ach_title := "Route Planner";
     ach_description := "Successfully planned your first route!";
     ach_points := 50 |}.

(** [coordinates.map(coord => [coord[1], coord[0]])]. *)
Definition toLatLng (coord : Position) : LatLng := (snd coord, fst coord).

(** [Math.max(5, Math.floor(distance / 0.5))]. *)
Definition stepCount (distance : R) : Z :=
  JS.Math_max 5 (JS.Math_floor (distance / 0.5)).

(** [for (let i = 0; i <= steps; i++) coordinates.push(along(line,
    distance * (i / steps)))]. *)
Definition sampledPath (line : LineString) (distance : R) (steps : Z) : list Position :=
  map (fun i : nat =>
         let segment := INR i / IZR steps in
         turf_along T line (distance * segment))
      (seq 0 (S (Z.to_nat steps))).

Definition simulateRoute (s : State) : State :=
  match userLocation s, selectedLocation s with
  | Some user, Some selected =>
      let startPoint : Position := (snd user, fst user) in
      let endPoint : Position := (loc_lon selected, loc_lat selected) in
      let line : LineString := (startPoint, endPoint) in
      let distance := turf_length T line in
      let steps := stepCount distance in
      let coordinates := sampledPath line distance steps in
      let s1 :=
        setRoute
          (Some {| route_coordinates := coordinates;
                   route_duration := JS.Math_round (distance * 3);
                   route_distance := JS.toFixed1 distance;
                   route_steps :=
                     [{| step_instruction :=
                           "Head to " ++ JS.first_segment (loc_display_name selected);
                         step_distance := JS.Math_round (distance * 1000) |}] |})
          s in
      let s2 := withMap (FitBounds (map toLatLng coordinates)) s1 in
      setAchievement (Some routePlanner) s2
  | _, _ => s
  end.

(** The profile segment of the request URL, from [transportMode]. *)
Definition routingProfile (mode : string) : string :=
  if String.eqb mode "driving-car" then "car"
  else if String.eqb mode "cycling" then "bike"
  else "foot".

(** The routing request: the profile, then origin and destination as
    [lon,lat] pairs. *)
Definition routingRequest (mode : string) (user : LatLng) (selected : Location)
    : string * Position * Position :=
  (routingProfile mode, (snd user, fst user), (loc_lon selected, loc_lat selected)).

(** [data.code === 'Ok' && data.routes && data.routes[0]]. *)
Definition firstRoute (data : OsrmData) : option OsrmRoute :=
  match osrm_code data with
  | Some code =>
      if String.eqb code "Ok" then
        match osrm_routes data with
        | Some (r :: _) => Some r
        | _ => None
        end
      else None
  | None => None
  end.

(** [handleGetDirections]; [reply] is the outcome of the routing request.
    Whatever is raised inside the [try] (a rejected request, a body that is
    not JSON, a property of [null] or of a missing [geometry]) runs the
    [catch], which calls [simulateRoute]. *)
Definition handleGetDirections (s : State) (reply : Fetched OsrmData) : State :=
  match userLocation s, selectedLocation s with
  | Some _, Some _ =>
      match reply with
      | NetworkError => simulateRoute s
      | Replied _ _ NotJson => simulateRoute s
      | Replied _ _ JsonNull => simulateRoute s
      | Replied _ _ (Json data) =>
          match firstRoute data with
          | Some r =>
              match osrm_geometry r with
              | None => simulateRoute s
              | Some coordinates =>
                  let s1 :=
                    setRoute
                      (Some {| route_coordinates := coordinates;
                               route_duration := JS.Math_round (osrm_duration r / 60);
                               route_distance := JS.toFixed1 (osrm_distance r / 1000);
                               route_steps :=
                                 [{| step_instruction := "Head to your destination";
                                     step_distance := JS.Math_round (osrm_distance r) |}] |})
                      s in
                  let s2 := withMap (FitBounds (map toLatLng coordinates)) s1 in
                  setAchievement (Some routePlanner) s2
              end
          | None => s
          end
      end
  | _, _ => s
  end.

End Discovery.

(** ** Destination selection *)

(** [handleLocationClick]: the reverse-geocoded record of a map click. *)
Definition handleLocationClick (s : State) (location : Location) : State :=
  let s1 := setSelectedLocation (Some location) s in
  let newPosition : LatLng := (loc_lat location, loc_lon location) in
  let s2 := setPosition newPosition s1 in
  let s3 := withMap (SetView newPosition 13) s2 in
  setRoute None s3.

(** [handleLocationSelect]: a result of the geocoder search. *)
Definition handleLocationSelect (s : State) (location : Location) : State :=
  let s1 := setSelectedLocation (Some location) s in
  let newPosition : LatLng := (loc_lat location, loc_lon location) in
  let s2 := setPosition newPosition s1 in
  let s3 := withMap (SetView newPosition 13) s2 in
  setRoute None s3.

(** ** Vocabulary of the statements *)

(** A recommendation list in ascending order of [distance]. *)
Definition ascending (l : list Place) : Prop :=
  Sorted (fun a b => place_distance a <= place_distance b) l.

(** Tier 1 comes up empty: the request fails, the reply is an error
    status, has no JSON body, or carries no element. *)
Definition overpassYieldsNothing (reply : Fetched OverpassData) : bool :=
  match reply with
  | Replied true _ (Json data) =>
      match ov_elements data with
      | Some (_ :: _) => false
      | _ => true
      end
  | _ => true
  end.

(** Tier 2 comes up empty, likewise. *)
Definition nominatimYieldsNothing (reply : Fetched (list NominatimPlace)) : bool :=
  match reply with
  | Replied true _ (Json (_ :: _)) => false
  | _ => true
  end.

(** The routing request did not give a route the handler accepts: it
    failed, or its reply is not JSON, has a code other than [Ok], or has
    no first route. *)
Definition routingGaveNoRoute (reply : Fetched OsrmData) : bool :=
  match reply with
  | Replied _ _ (Json data) =>
      match firstRoute data with
      | Some _ => false
      | None => true
      end
  | _ => true
  end.

(** The tags the element filter looks at. *)
Definition filterKeys : list string := ["name"; "tourism"; "historic"; "amenity"]%string.

(** An element the filter lets through: it has a tag object in which one
    of [filterKeys] has a non-empty value. *)
Definition hasFilterTag (element : Element) : Prop :=
  exists tags key v,
    el_tags element = Some tags /\ In key filterKeys /\
    tag key tags = Some v /\ v <> EmptyString.

(** The reading of the specification: a feature counts when it has a name
    or a tag of one of the queried categories (tourism, restaurant or cafe
    amenity, historic, park). *)
Definition hasQueriedTag (element : Element) : bool :=
  match el_tags element with
  | None => false
  | Some tags =>
      JS.truthy (tag "name" tags) || JS.truthy (tag "tourism" tags)
      || match tag "amenity" tags with
         | Some v => String.eqb v "restaurant" || String.eqb v "cafe"
         | None => false
         end
      || JS.truthy (tag "historic" tags)
      || match tag "leisure" tags with
         | Some v => String.eqb v "park"
         | None => false
         end
  end.


(** ** Concrete inputs *)

Module Sample.

Definition initialState : State :=
  {| position := (20.5937, 78.9629);
     showRecommendations := false;
     selectedLocation := None;
     route := None;
     transportMode := "driving-car";
     userLocation := None;
     recommendations := [];
     achievement := None;
     locationError := None;
     isLoadingLocation := false;
     mapRef := Some Untouched |}.

Definition oakland : Location :=
  {| loc_place_id := Some 297054975%Z;
     loc_display_name := "Oakland, Alameda County, California, United States";
     loc_lat := 37.8044;
     loc_lon := -122.2712 |}.

(** The user in San Francisco, Oakland selected, no route yet. *)
Definition sanFranciscoToOakland : State :=
  setSelectedLocation (Some oakland)
    (setUserLocation (Some (37.7749, -122.4194)) initialState).

(** A reply of the routing service that refuses the request. *)
Definition noRouteReply : Fetched OsrmData :=
  Replied false 400 (Json {| osrm_code := Some "NoRoute"%string; osrm_routes := None |}).

Definition equatorEast : Location :=
  {| loc_place_id := None;
     loc_display_name := "Sumatra, Indonesia";
     loc_lat := 0;
     loc_lon := 100 |}.

(** Two places on the equator, 100 degrees of longitude apart. *)
Definition alongEquator : State :=
  setSelectedLocation (Some equatorEast)
    (setUserLocation (Some (0, 0)) initialState).

(** Draws whose first is 0.8 and whose others are 0.1. *)
Definition unevenDraws (k : nat) : R :=
  match k with
  | O => 0.8
  | S _ => 0.1
  end.

Definition zeroDraws (_ : nat) : R := 0.

(** A park that carries no name. *)
Definition unnamedPark : Element :=
  {| el_id := 4217;
     el_tags := Some [("leisure", "park")]%string;
     el_lat := Some 37.77;
     el_lon := Some (-122.42);
     el_center := None |}.

Definition louvre : NominatimPlace :=
  {| nom_place_id := 88;
     nom_display_name := Some "Louvre Museum, Paris, France"%string;
     nom_type := Some "museum"%string;
     nom_lat := 48.8606;
     nom_lon := 2.3376 |}.

Definition offline : Services :=
  {| overpassReply := NetworkError;
     nominatimReply := NetworkError;
     draws1 := zeroDraws;
     draws2 := zeroDraws;
     draws3 := unevenDraws |}.

End Sample.

(** ** The rest of the component *)

Definition setTransportMode (v : string) (s : State) : State :=
  {| position := position s; showRecommendations := showRecommendations s;
     selectedLocation := selectedLocation s; route := route s;
     transportMode := v; userLocation := userLocation s;
     recommendations := recommendations s; achievement := achievement s;
     locationError := locationError s;
     isLoadingLocation := isLoadingLocation s; mapRef := mapRef s |}.

(** [handleLocateMe]: with a known user location the view is recentred on
    it; without one the function is [getUserLocation], whose [outcome] is
    then consulted. *)
Definition handleLocateMe (hasInitialSelectedPlace : bool) (s : State)
    (outcome : Geolocation) : State * list Effect :=
  match userLocation s with
  | Some user => (withMap (SetView user 13) (setPosition user s), [])
  | None => getUserLocation hasInitialSelectedPlace s outcome
  end.

(** The effect on [selectedLocation]: a selection starts a discovery
    around the destination. *)
Definition selectedLocationEffect (s : State) : list Effect :=
  match selectedLocation s with
  | Some selected => [FetchNearbyPlacesCall (loc_lat selected) (loc_lon selected)]
  | None => []
  end.

(** The click handler of [MapController]: the reverse geocoding reply,
    when it parses to a record, is handed to [onLocationClick] with its
    [lat] and [lon] replaced by the clicked point; a rejection is logged
    and a [null] body ignored. *)
Definition mapClick (s : State) (lat lng : R) (reply : Fetched Location) : State :=
  match reply with
  | Replied _ _ (Json data) =>
      handleLocationClick s
        {| loc_place_id := loc_place_id data;
           loc_display_name := loc_display_name data;
           loc_lat := lat;
           loc_lon := lng |}
  | Replied _ _ JsonNull => s
  | Replied _ _ NotJson => s
  | NetworkError => s
  end.

(** [handleZoomEnd]: the call it makes to [setIsGlobeView], if any. *)
Definition handleZoomEnd (isGlobeView : bool) (zoom : R) : option bool :=
  if Rlt_dec zoom 3 then
    if negb isGlobeView then Some true else None
  else
    if isGlobeView then Some false else None.

(** The [onClose] of the destination box. *)
Definition closeLocationInfo (s : State) : State := setSelectedLocation None s.

(** [route.coordinates.map(coord => [coord[1], coord[0]])]: the positions
    of the drawn line. *)
Definition polyline (s : State) : option (list LatLng) :=
  match route s with
  | Some r => Some (map toLatLng (route_coordinates r))
  | None => None
  end.

(** *** Handlers called from an earlier render

    A handler reads the state variables of the render that created it and
    its setters act on the state of the moment.  [simulateRouteFrom] and
    [handleGetDirectionsFrom] are [simulateRoute] and
    [handleGetDirections] with the two states told apart: [closure] is
    read, [current] is written ([mapRef.current] is read when used). *)

Definition simulateRouteFrom (T : Turf) (closure current : State) : State :=
  match userLocation closure, selectedLocation closure with
  | Some user, Some selected =>
      let startPoint : Position := (snd user, fst user) in
      let endPoint : Position := (loc_lon selected, loc_lat selected) in
      let line : LineString := (startPoint, endPoint) in
      let distance := turf_length T line in
      let steps := stepCount distance in
      let coordinates := sampledPath T line distance steps in
      let s1 :=
        setRoute
          (Some {| route_coordinates := coordinates;
                   route_duration := JS.Math_round (distance * 3);
                   route_distance := JS.toFixed1 distance;
                   route_steps :=
                     [{| step_instruction :=
                           "Head to " ++ JS.first_segment (loc_display_name selected);
                         step_distance := JS.Math_round (distance * 1000) |}] |})
          current in
      let s2 := withMap (FitBounds (map toLatLng coordinates)) s1 in
      setAchievement (Some routePlanner) s2
  | _, _ => current
  end.

Definition handleGetDirectionsFrom (T : Turf) (closure current : State)
    (reply : Fetched OsrmData) : State :=
  match userLocation closure, selectedLocation closure with
  | Some _, Some _ =>
      match reply with
      | NetworkError => simulateRouteFrom T closure current
      | Replied _ _ NotJson => simulateRouteFrom T closure current
      | Replied _ _ JsonNull => simulateRouteFrom T closure current
      | Replied _ _ (Json data) =>
          match firstRoute data with
          | Some r =>
              match osrm_geometry r with
              | None => simulateRouteFrom T closure current
              | Some coordinates =>
                  let s1 :=
                    setRoute
                      (Some {| route_coordinates := coordinates;
                               route_duration := JS.Math_round (osrm_duration r / 60);
                               route_distance := JS.toFixed1 (osrm_distance r / 1000);
                               route_steps :=
                                 [{| step_instruction := "Head to your destination";
                                     step_distance := JS.Math_round (osrm_distance r) |}] |})
                      current in
                  let s2 := withMap (FitBounds (map toLatLng coordinates)) s1 in
                  setAchievement (Some routePlanner) s2
              end
          | None => current
          end
      end
  | _, _ => current
  end.

(** *** The effect on [initialSelectedPlace] *)

(** The [initialSelectedPlace] property.  [ip_lat] and [ip_lng] are
    [coordinates.lat] and [coordinates.lng]; the effect prints them and
    [parseFloat] reads them back. *)
Record InitialPlace : Type := {
  ip_id : Z;
  ip_name : string;
  ip_description : string;
  ip_lat : R;
  ip_lng : R
}.

(** A callback handed to [setTimeout]: the directions request of the
    render [closure]. *)
Inductive Timer : Type :=
| DirectionsTimer (closure : State).

(** The effect run in the render of state [s] with the flag
    [isInitialLoad]: the state and the flag after its setters, and the
    timer it starts. *)
Definition initialPlaceEffect (initialSelectedPlace : option InitialPlace)
    (isInitialLoad : bool) (s : State) : State * bool * list Timer :=
  match initialSelectedPlace, isInitialLoad with
  | Some place, true =>
      let locationData :=
        {| loc_place_id := Some (ip_id place);
           loc_display_name := ip_name place ++ ", " ++ ip_description place;
           loc_lat := ip_lat place;
           loc_lon := ip_lng place |} in
      let s1 := setSelectedLocation (Some locationData) s in
      let s2 := match route s with Some _ => setRoute None s1 | None => s1 end in
      let s3 := setPosition (ip_lat place, ip_lng place) s2 in
      (s3, false, [DirectionsTimer s])
  | _, _ => (s, isInitialLoad, [])
  end.

(** The timer firing in the state [current]:
    [if (userLocation) handleGetDirections()], both of the render that
    started it. *)
Definition fireTimer (T : Turf) (t : Timer) (current : State)
    (reply : Fetched OsrmData) : State :=
  match t with
  | DirectionsTimer closure =>
      match userLocation closure with
      | Some _ => handleGetDirectionsFrom T closure current reply
      | None => current
      end
  end.

(** * Properties *)

(** ** The sort *)

Lemma sort_insert_In {A : Type} (cmp : A -> A -> R) (x y : A) (l : list A) :
  In y (sort_insert cmp x l) <-> y = x \/ In y l.
Proof.
  induction l as [|z l IH]; simpl.
  - intuition.
  - destruct (Rle_dec (cmp x z) 0); simpl; rewrite ?IH; intuition.
Qed.

Lemma array_sort_In {A : Type} (cmp : A -> A -> R) (y : A) (l : list A) :
  In y (array_sort cmp l) <-> In y l.
Proof.
  induction l as [|x l IH]; simpl; [tauto|].
  rewrite sort_insert_In, IH. intuition.
Qed.

Lemma sort_insert_length {A : Type} (cmp : A -> A -> R) (x : A) (l : list A) :
  List.length (sort_insert cmp x l) = S (List.length l).
Proof.
  induction l as [|z l IH]; simpl; [reflexivity|].
  destruct (Rle_dec (cmp x z) 0); simpl; congruence.
Qed.

Lemma array_sort_length {A : Type} (cmp : A -> A -> R) (l : list A) :
  List.length (array_sort cmp l) = List.length l.
Proof.
  induction l as [|x l IH]; simpl; [reflexivity|].
  now rewrite sort_insert_length, IH.
Qed.

Lemma sort_insert_ascending (x : Place) (l : list Place) :
  ascending l -> ascending (sort_insert byDistance x l).
Proof.
  unfold ascending.
  induction l as [|y l IH]; simpl; intros Hl.
  - repeat constructor.
  - destruct (Rle_dec (byDistance x y) 0) as [Hle|Hgt].
    + constructor; [assumption|]. constructor. unfold byDistance in Hle. lra.
    + apply Sorted_inv in Hl. destruct Hl as [Hl Hhd].
      constructor; [now apply IH|].
      unfold byDistance in Hgt.
      destruct l as [|z l]; simpl.
      * constructor. lra.
      * destruct (Rle_dec (byDistance x z) 0).
        -- constructor. lra.
        -- apply HdRel_inv in Hhd. now constructor.
Qed.

Lemma array_sort_ascending (l : list Place) : ascending (array_sort byDistance l).
Proof.
  induction l as [|x l IH]; simpl.
  - constructor.
  - now apply sort_insert_ascending.
Qed.

(** ** [map] with a callback that may raise *)

Lemma mapFrom_length {A B : Type} (f : nat -> A -> option B) (l : list A) :
  forall k ys, mapFrom f k l = Some ys -> List.length ys = List.length l.
Proof.
  induction l as [|x l IH]; simpl; intros k ys H.
  - now inversion H.
  - destruct (f k x); [|discriminate].
    destruct (mapFrom f (S k) l) eqn:E; [|discriminate].
    inversion H; subst; simpl. f_equal. now apply (IH (S k)).
Qed.

Lemma mapFrom_In {A B : Type} (f : nat -> A -> option B) (l : list A) :
  forall k ys y, mapFrom f k l = Some ys -> In y ys ->
  exists i x, nth_error l i = Some x /\ f (k + i)%nat x = Some y.
Proof.
  induction l as [|x l IH]; simpl; intros k ys y H Hy.
  - inversion H; subst. destruct Hy.
  - destruct (f k x) as [b|] eqn:Ef; [|discriminate].
    destruct (mapFrom f (S k) l) as [bs|] eqn:E; [|discriminate].
    inversion H; subst. destruct Hy as [<-|Hy].
    + exists 0%nat, x. split; [reflexivity|]. now rewrite Nat.add_0_r.
    + destruct (IH (S k) bs y E Hy) as (i & x' & Hi & Hf).
      exists (S i), x'. split; [exact Hi|].
      now replace (k + S i)%nat with (S k + i)%nat by lia.
Qed.

Lemma mapFrom_total {A B : Type} (f : nat -> A -> option B) (l : list A) :
  (forall k x, In x l -> f k x <> None) ->
  forall k, exists ys, mapFrom f k l = Some ys.
Proof.
  induction l as [|x l IH]; simpl; intros Hf k.
  - now exists [].
  - destruct (f k x) as [b|] eqn:Ef.
    + destruct (IH (fun k' x' Hx => Hf k' x' (or_intror Hx)) (S k)) as [ys ->].
      now exists (b :: ys).
    + exfalso. apply (Hf k x); auto.
Qed.

(** ** Destination selection and the directions guard *)

(** C9. After a destination is selected, from a search result
    ([handleLocationSelect]) or from a map click ([handleLocationClick]),
    the selection is the destination and the route is absent, whatever
    route the state held before. *)
Theorem selection_clears_route (s : State) (location : Location) :
  route (handleLocationSelect s location) = None /\
  selectedLocation (handleLocationSelect s location) = Some location /\
  route (handleLocationClick s location) = None /\
  selectedLocation (handleLocationClick s location) = Some location.
Proof. repeat split. Qed.

(** C10. When the user location or the destination is absent,
    [handleGetDirections] (whatever the routing service would reply) and
    [simulateRoute] return the state they were given: no route is set, no
    achievement is signalled, nothing else changes. *)
Theorem directions_need_both_endpoints (T : Turf) (s : State) (reply : Fetched OsrmData) :
  userLocation s = None \/ selectedLocation s = None ->
  handleGetDirections T s reply = s /\ simulateRoute T s = s.
Proof.
  unfold handleGetDirections, simulateRoute.
  intros [H|H]; rewrite H; [now split|].
  destruct (userLocation s); now split.
Qed.

Lemma directions_need_both_endpoints_witness :
  (userLocation Sample.initialState = None \/
   selectedLocation Sample.initialState = None) /\
  handleGetDirections Sphere.turf Sample.initialState NetworkError = Sample.initialState /\
  simulateRoute Sphere.turf Sample.initialState = Sample.initialState.
Proof.
  split; [left; reflexivity|].
  apply (directions_need_both_endpoints Sphere.turf Sample.initialState NetworkError).
  left; reflexivity.
Defined.

(** ** Geolocation *)

Lemma fetchNearbyPlaces_shows (T : Turf) (s : State) (lat lon : R)
    (overpass : Fetched OverpassData) (nominatim : Fetched (list NominatimPlace))
    (rnd1 rnd2 rnd3 : nat -> R) :
  let s' := fetchNearbyPlaces T s lat lon overpass nominatim rnd1 rnd2 rnd3 in
  showRecommendations s' = true /\
  userLocation s' = userLocation s /\
  locationError s' = locationError s /\
  route s' = route s /\
  selectedLocation s' = selectedLocation s.
Proof.
  assert (F : let s' := fallbackToNominatim T s lat lon nominatim rnd2 rnd3 in
              showRecommendations s' = true /\ userLocation s' = userLocation s /\
              locationError s' = locationError s /\ route s' = route s /\
              selectedLocation s' = selectedLocation s).
  { unfold fallbackToNominatim.
    destruct nominatim as [|[|] status [| |[|d data]]]; try (now repeat split).
    destruct (mapFrom _ _ _); now repeat split. }
  unfold fetchNearbyPlaces.
  destruct overpass as [|[|] status [| |[[[|e es]|]]]]; try exact F.
  cbn [ov_elements].
  destruct (mapFrom _ _ _); [now repeat split|exact F].
Qed.

(** C8. When geolocation fails (the error callback runs, as for a denied
    permission or a timeout, or the browser has no geolocation), the user
    location becomes (37.7749, -122.4194), the error string is set (it
    quotes the message of the failure, or says that geolocation is not
    supported), loading ends, and exactly one discovery is started, for
    that coordinate.  Whatever the services then reply, that discovery
    completes and shows its recommendations, the fallback location and the
    error string still in place. *)
Theorem geolocation_failure_falls_back (T : Turf) (hasInitial : bool) (s : State)
    (env : Services) :
  (forall message,
     let r := getUserLocation hasInitial s (GeoError message) in
     let s' := fold_left (runEffect T env) (snd r) (fst r) in
     userLocation (fst r) = Some (37.7749, -122.4194) /\
     locationError (fst r) =
       Some ("Location error: " ++ message ++ ". Please enable location services.")%string /\
     isLoadingLocation (fst r) = false /\
     snd r = [FetchNearbyPlacesCall 37.7749 (-122.4194)] /\
     showRecommendations s' = true /\
     userLocation s' = userLocation (fst r) /\
     locationError s' = locationError (fst r)) /\
  (let r := getUserLocation hasInitial s GeoUnsupported in
   let s' := fold_left (runEffect T env) (snd r) (fst r) in
   userLocation (fst r) = Some (37.7749, -122.4194) /\
   locationError (fst r) = Some "Geolocation is not supported by this browser"%string /\
   isLoadingLocation (fst r) = false /\
   snd r = [FetchNearbyPlacesCall 37.7749 (-122.4194)] /\
   showRecommendations s' = true /\
   userLocation s' = userLocation (fst r) /\
   locationError s' = locationError (fst r)).
Proof.
  split; [intros message|]; simpl;
    match goal with
    | |- context [fetchNearbyPlaces T ?s0 ?a ?b ?o ?n ?r1 ?r2 ?r3] =>
        destruct (fetchNearbyPlaces_shows T s0 a b o n r1 r2 r3) as (H1 & H2 & H3 & _)
    end;
    rewrite H1, H2, H3; now repeat split.
Qed.

(** ** Numbers *)

Lemma PI_bounds : 3.141591 < PI < 3.141594.
Proof.
  pose proof (PI_2_3_7_ineq 3) as H.
  unfold PI_2_3_7_tg, tg_alt, Ratan_seq in H.
  simpl in H.
  lra.
Qed.

Lemma Math_atan2_right (y x : R) : 0 < x -> JS.Math_atan2 y x = atan (y / x).
Proof.
  intros Hx. unfold JS.Math_atan2.
  destruct (total_order_T x 0) as [[Hlt|Heq]|Hgt]; [lra|lra|reflexivity].
Qed.

Lemma rem_small (x y : R) : 0 <= x < y -> JS.rem x y = x.
Proof.
  intros [H0 Hy]. unfold JS.rem, JS.trunc.
  assert (Hq : 0 <= x / y < 1).
  { split.
    - apply Rmult_le_pos; [lra|]. left. apply Rinv_0_lt_compat. lra.
    - apply (Rmult_lt_reg_r y); [lra|]. unfold Rdiv.
      rewrite Rmult_assoc, Rinv_l by lra. lra. }
  destruct (Rle_dec 0 (x / y)) as [_|Hn]; [|lra].
  rewrite (Zfloor_eq 0 (x / y)) by (simpl; lra). simpl. lra.
Qed.

(** The angle the Haversine formula recovers from a half-angle [h]. *)
Lemma haversine_angle (h : R) :
  0 <= h < PI / 2 ->
  2 * JS.Math_atan2 (sqrt (sin h * sin h)) (sqrt (1 - sin h * sin h)) = 2 * h.
Proof.
  intros [H0 H1].
  assert (Hc : 0 < cos h) by (apply cos_gt_0; lra).
  assert (Hs : 0 <= sin h) by (apply sin_ge_0; lra).
  assert (E : 1 - sin h * sin h = cos h * cos h).
  { pose proof (sin2_cos2 h) as P. unfold Rsqr in P. lra. }
  rewrite E, !sqrt_square by lra.
  rewrite Math_atan2_right by assumption.
  fold (tan h). rewrite atan_tan by lra. reflexivity.
Qed.

(** On the equator both distances are the arc: radius times the
    difference of longitude in radians. *)
Lemma calculateDistance_equator (x : R) :
  0 <= x < 180 -> calculateDistance 0 0 0 x = 6371 * (x * PI / 180).
Proof.
  intros Hx. unfold calculateDistance.
  pose proof PI_RGT_0 as Hpi.
  replace ((0 - 0) * PI / 180 / 2) with 0 by lra.
  replace (0 * PI / 180) with 0 by lra.
  rewrite sin_0, cos_0.
  replace (0 * 0 + 1 * 1 * sin ((x - 0) * PI / 180 / 2) * sin ((x - 0) * PI / 180 / 2))
    with (sin (x * PI / 360) * sin (x * PI / 360)).
  2:{ replace ((x - 0) * PI / 180 / 2) with (x * PI / 360) by lra. ring. }
  rewrite haversine_angle; [lra|].
  split; nra.
Qed.

Lemma Sphere_distance_equator (x : R) :
  0 <= x < 180 ->
  Sphere.distance (0, 0) (x, 0) = x * PI / 180 * Sphere.earthRadiusKm.
Proof.
  intros Hx. unfold Sphere.distance, Sphere.degreesToRadians. simpl fst; simpl snd.
  pose proof PI_RGT_0 as Hpi.
  replace (0 - 0) with 0 by lra. replace (x - 0) with x by lra.
  rewrite (rem_small 0 360) by lra. rewrite (rem_small x 360) by lra.
  replace (0 * PI / 180) with 0 by lra. replace (0 / 2) with 0 by lra.
  rewrite sin_0, cos_0.
  replace (0 ^ 2 + sin (x * PI / 180 / 2) ^ 2 * 1 * 1)
    with (sin (x * PI / 360) * sin (x * PI / 360)).
  2:{ replace (x * PI / 180 / 2) with (x * PI / 360) by lra. ring. }
  rewrite haversine_angle; [lra|].
  split; nra.
Qed.

Lemma rem_within (x y : R) : Rabs x < y -> JS.rem x y = x.
Proof.
  intros H. unfold JS.rem, JS.trunc.
  assert (Hy : 0 < y) by (pose proof (Rabs_pos x); lra).
  destruct (Rle_dec 0 (x / y)) as [Hq|Hq].
  - assert (Hx : 0 <= x).
    { replace x with (x / y * y) by (field; lra). apply Rmult_le_pos; lra. }
    rewrite Rabs_pos_eq in H by exact Hx.
    rewrite (Zfloor_eq 0 (x / y)); [simpl; lra|]. simpl. split; [exact Hq|].
    apply (Rmult_lt_reg_r y); [lra|]. replace (x / y * y) with x by (field; lra). lra.
  - assert (Hx : x < 0).
    { destruct (Rlt_dec x 0) as [Hn|Hn]; [exact Hn|]. exfalso. apply Hq.
      apply Rmult_le_pos; [lra|]. left. apply Rinv_0_lt_compat. lra. }
    rewrite Rabs_left in H by exact Hx.
    unfold Zceil. rewrite (Zfloor_eq 0 (- (x / y))); [simpl; lra|]. simpl. split; [lra|].
    apply (Rmult_lt_reg_r y); [lra|].
    replace (- (x / y) * y) with (- x) by (field; lra). lra.
Qed.

Lemma rem_full_turn : JS.rem 360 360 = 0 /\ JS.rem (-360) 360 = 0.
Proof.
  unfold JS.rem, JS.trunc. split.
  - destruct (Rle_dec 0 (360 / 360)); [|lra].
    rewrite (Zfloor_eq 1) by (simpl; lra). simpl. lra.
  - destruct (Rle_dec 0 (-360 / 360)); [lra|].
    unfold Zceil. rewrite (Zfloor_eq 1) by (simpl; lra). simpl. lra.
Qed.

(** Reducing an angle difference with [%] leaves the squared sine of its
    half unchanged. *)
Lemma haversine_term_reduced (d : R) :
  -360 <= d <= 360 ->
  sin (Sphere.degreesToRadians d / 2) ^ 2 = sin (d * PI / 180 / 2) * sin (d * PI / 180 / 2).
Proof.
  intros [Hlo Hhi]. unfold Sphere.degreesToRadians.
  destruct (Req_dec d 360) as [->|H1]; [|destruct (Req_dec d (-360)) as [->|H2]].
  - rewrite (proj1 rem_full_turn).
    replace (0 * PI / 180 / 2) with 0 by lra.
    replace (360 * PI / 180 / 2) with PI by lra.
    rewrite sin_0, sin_PI. ring.
  - rewrite (proj2 rem_full_turn).
    replace (0 * PI / 180 / 2) with 0 by lra.
    replace (-360 * PI / 180 / 2) with (- PI) by lra.
    rewrite sin_0, sin_neg, sin_PI. ring.
  - rewrite rem_within; [ring|].
    apply Rabs_def1; lra.
Qed.

(** For coordinates in range, the library's distance is the Haversine
    distance of [calculateDistance] scaled from the radius 6371 to the
    radius 6371.0088. *)
Lemma Sphere_distance_scales (lat1 lon1 lat2 lon2 : R) :
  -90 <= lat1 <= 90 -> -90 <= lat2 <= 90 ->
  -180 <= lon1 <= 180 -> -180 <= lon2 <= 180 ->
  Sphere.distance (lon1, lat1) (lon2, lat2) * 6371
  = calculateDistance lat1 lon1 lat2 lon2 * Sphere.earthRadiusKm.
Proof.
  intros H1 H2 H3 H4. unfold Sphere.distance, calculateDistance. simpl fst; simpl snd.
  rewrite !haversine_term_reduced by lra.
  unfold Sphere.degreesToRadians.
  rewrite (rem_within lat1), (rem_within lat2) by (apply Rabs_def1; lra).
  match goal with
  | |- 2 * JS.Math_atan2 (sqrt ?a) _ * _ * _ = _ * (2 * JS.Math_atan2 (sqrt ?b) _) * _ =>
      replace a with b by ring
  end.
  ring.
Qed.

(** The sphere keeps the promise [along_reaches_ends]. *)
Lemma Sphere_along_reaches_ends : along_reaches_ends Sphere.turf.
Proof.
  split; intros l; simpl; unfold Sphere.along, Sphere.length.
  - destruct (Rle_dec 0 0); [reflexivity|lra].
  - intros Hpos.
    destruct (Rle_dec (Sphere.distance (fst l) (snd l)) 0); [lra|].
    destruct (Rle_dec (Sphere.distance (fst l) (snd l))
                      (Sphere.distance (fst l) (snd l))); [reflexivity|lra].
Qed.

(** ** The route fallback *)

Lemma stepCount_ge_5 (distance : R) : (5 <= stepCount distance)%Z.
Proof. unfold stepCount, JS.Math_max. lia. Qed.

Lemma sampledPath_length (T : Turf) (line : LineString) (distance : R) (steps : Z) :
  List.length (sampledPath T line distance steps) = S (Z.to_nat steps).
Proof. unfold sampledPath. now rewrite length_map, length_seq. Qed.

Lemma sampledPath_nth (T : Turf) (line : LineString) (distance : R) (steps : Z) (i : nat) :
  (i <= Z.to_nat steps)%nat ->
  nth_error (sampledPath T line distance steps) i =
  Some (turf_along T line (distance * (INR i / IZR steps))).
Proof.
  intros Hi. unfold sampledPath.
  rewrite nth_error_map, nth_error_seq.
  destruct (Nat.ltb_spec i (S (Z.to_nat steps))); [reflexivity|lia].
Qed.

(** What [simulateRoute] stores when both endpoints are known. *)
Lemma simulateRoute_sets (T : Turf) (s : State) (user : LatLng) (selected : Location) :
  userLocation s = Some user ->
  selectedLocation s = Some selected ->
  let line : LineString := ((snd user, fst user), (loc_lon selected, loc_lat selected)) in
  let distance := turf_length T line in
  exists r,
    route (simulateRoute T s) = Some r /\
    route_coordinates r = sampledPath T line distance (stepCount distance) /\
    route_duration r = JS.Math_round (distance * 3) /\
    route_distance r = JS.toFixed1 distance /\
    achievement (simulateRoute T s) = Some routePlanner.
Proof.
  intros Hu Hs. unfold simulateRoute. rewrite Hu, Hs.
  eexists. repeat split.
Qed.

(** The requests the [catch] of [handleGetDirections] recovers: the
    handler then behaves as [simulateRoute], and a route is stored. *)
Lemma directions_fall_back_when_raised (T : Turf) (s : State) (user : LatLng)
    (selected : Location) (reply : Fetched OsrmData) :
  userLocation s = Some user ->
  selectedLocation s = Some selected ->
  (reply = NetworkError \/
   (exists ok status, reply = Replied ok status NotJson) \/
   (exists ok status, reply = Replied ok status JsonNull)) ->
  handleGetDirections T s reply = simulateRoute T s /\
  route (handleGetDirections T s reply) <> None.
Proof.
  intros Hu Hs Hr.
  assert (E : handleGetDirections T s reply = simulateRoute T s).
  { unfold handleGetDirections. rewrite Hu, Hs.
    destruct Hr as [->|[(ok & status & ->)|(ok & status & ->)]]; reflexivity. }
  split; [exact E|]. rewrite E.
  destruct (simulateRoute_sets T s user selected Hu Hs) as (r & Hr' & _).
  rewrite Hr'. discriminate.
Qed.

(** A reply that parses but carries no accepted route leaves the state as
    it was: the handler has no branch for it. *)
Lemma directions_ignore_refusal (T : Turf) (s : State) (ok : bool) (status : Z)
    (data : OsrmData) :
  firstRoute data = None ->
  handleGetDirections T s (Replied ok status (Json data)) = s.
Proof.
  intros H. unfold handleGetDirections. rewrite H.
  destruct (userLocation s), (selectedLocation s); reflexivity.
Qed.

(** C1, at the failing input.  The user is in San Francisco, Oakland is
    selected and no route is held; the routing service answers with the
    code [NoRoute] and no routes.  The request gave no route, yet the
    handler returns the state unchanged: the route stays absent and no
    achievement is signalled, where the fallback would have stored a
    route. *)
Theorem directions_refusal_gives_no_route (T : Turf) :
  routingGaveNoRoute Sample.noRouteReply = true /\
  handleGetDirections T Sample.sanFranciscoToOakland Sample.noRouteReply
    = Sample.sanFranciscoToOakland /\
  route (handleGetDirections T Sample.sanFranciscoToOakland Sample.noRouteReply) = None /\
  achievement (handleGetDirections T Sample.sanFranciscoToOakland Sample.noRouteReply) = None /\
  route (simulateRoute T Sample.sanFranciscoToOakland) <> None.
Proof.
  assert (E : handleGetDirections T Sample.sanFranciscoToOakland Sample.noRouteReply
              = Sample.sanFranciscoToOakland)
    by (apply directions_ignore_refusal; reflexivity).
  split; [reflexivity|]. split; [exact E|]. rewrite E.
  split; [reflexivity|]. split; [reflexivity|].
  discriminate.
Qed.

(** The line along the equator of [Sample.alongEquator], on the sphere. *)
Lemma equator_line_length :
  turf_length Sphere.turf ((0, 0), (100, 0)) = 100 * PI / 180 * 6371.0088.
Proof.
  simpl. unfold Sphere.length. simpl fst; simpl snd.
  rewrite Sphere_distance_equator by lra. reflexivity.
Qed.

(** C2, as the code has it.  When both endpoints are known, the fallback
    stores a route whose duration is round(3 * L) minutes and whose
    distance is L to one decimal, L being the length in kilometres that the
    geodesic library reports for the straight line from the origin to the
    destination (not the value of [calculateDistance]). *)
Theorem fallback_duration_from_line_length (T : Turf) (s : State) (user : LatLng)
    (selected : Location) :
  userLocation s = Some user ->
  selectedLocation s = Some selected ->
  let line : LineString := ((snd user, fst user), (loc_lon selected, loc_lat selected)) in
  exists r,
    route (simulateRoute T s) = Some r /\
    route_duration r = JS.Math_round (3 * turf_length T line) /\
    route_distance r = JS.toFixed1 (turf_length T line).
Proof.
  intros Hu Hs line.
  destruct (simulateRoute_sets T s user selected Hu Hs) as (r & Hr & _ & Hd & Hk & _).
  exists r. split; [exact Hr|]. split; [|exact Hk].
  rewrite Hd. f_equal. apply Rmult_comm.
Qed.

Lemma fallback_duration_from_line_length_witness :
  exists r,
    route (simulateRoute Sphere.turf Sample.alongEquator) = Some r /\
    route_duration r = JS.Math_round (3 * turf_length Sphere.turf ((0, 0), (100, 0))) /\
    route_distance r = JS.toFixed1 (turf_length Sphere.turf ((0, 0), (100, 0))).
Proof.
  exact (fallback_duration_from_line_length Sphere.turf Sample.alongEquator
           (0, 0) Sample.equatorEast eq_refl eq_refl).
Defined.

(** C2, as stated, fails.  From (0, 0) to (0, 100 E) the library's sphere
    gives a line of about 11119.51 km and the fallback a duration of 33359
    minutes, while round(3 * distanceKm) with the 6371 km radius of
    [calculateDistance] is 33358. *)
Lemma fallback_duration_differs :
  exists r,
    route (simulateRoute Sphere.turf Sample.alongEquator) = Some r /\
    route_duration r = 33359%Z /\
    JS.Math_round (3 * calculateDistance 0 0 0 100) = 33358%Z.
Proof.
  destruct (simulateRoute_sets Sphere.turf Sample.alongEquator (0, 0) Sample.equatorEast
              eq_refl eq_refl) as (r & Hr & _ & Hd & _).
  exists r. split; [exact Hr|].
  pose proof PI_bounds as Hpi.
  split.
  - rewrite Hd. simpl fst; simpl snd; simpl loc_lon; simpl loc_lat.
    rewrite equator_line_length.
    unfold JS.Math_round. apply Zfloor_eq. lra.
  - rewrite calculateDistance_equator by lra.
    unfold JS.Math_round. apply Zfloor_eq. lra.
Qed.

(** The first and the last sample of the loop. *)
Lemma sample_first (distance : R) (steps : Z) : distance * (INR 0 / IZR steps) = 0.
Proof. simpl. unfold Rdiv. ring. Qed.

Lemma sample_last (distance : R) (steps : Z) :
  (0 < steps)%Z -> distance * (INR (Z.to_nat steps) / IZR steps) = distance.
Proof.
  intros H. rewrite INR_IZR_INZ, Z2Nat.id by lia.
  field. apply not_0_IZR. lia.
Qed.

(** C3, as the code has it.  When both endpoints are known and the library
    walks a line from its first to its last vertex, the fallback derives
    the step count n = max(5, floor(L / 0.5)) from the length L of the
    straight line and stores a path of n + 1 points: point i, for i from 0
    to n, lies at the distance L * i / n along the line.  The path has at
    least 6 points, the origin is at index 0 and, for a line of positive
    length, the destination is at the last index. *)
Theorem fallback_path_samples (T : Turf) (s : State) (user : LatLng)
    (selected : Location) :
  userLocation s = Some user ->
  selectedLocation s = Some selected ->
  along_reaches_ends T ->
  let origin : Position := (snd user, fst user) in
  let destination : Position := (loc_lon selected, loc_lat selected) in
  let L := turf_length T (origin, destination) in
  let n := stepCount L in
  exists r,
    route (simulateRoute T s) = Some r /\
    n = Z.max 5 (Zfloor (L / 0.5)) /\
    Z.of_nat (List.length (route_coordinates r)) = (n + 1)%Z /\
    (forall i, (i <= Z.to_nat n)%nat ->
       nth_error (route_coordinates r) i =
       Some (turf_along T (origin, destination) (L * (INR i / IZR n)))) /\
    (6 <= List.length (route_coordinates r))%nat /\
    nth_error (route_coordinates r) 0 = Some origin /\
    (0 < L ->
     nth_error (route_coordinates r) (List.length (route_coordinates r) - 1)
       = Some destination).
Proof.
  intros Hu Hs [Hfirst Hlast] origin destination L n.
  destruct (simulateRoute_sets T s user selected Hu Hs) as (r & Hr & Hc & _).
  change (route_coordinates r = sampledPath T (origin, destination) L n) in Hc.
  pose proof (stepCount_ge_5 L) as Hn. fold n in Hn.
  exists r. split; [exact Hr|]. split; [reflexivity|].
  clearbody n.
  assert (Hlen : List.length (route_coordinates r) = S (Z.to_nat n))
    by (rewrite Hc; apply sampledPath_length).
  split; [rewrite Hlen; lia|].
  split; [intros i Hi; rewrite Hc; now apply sampledPath_nth|].
  split; [rewrite Hlen; lia|].
  split.
  - rewrite Hc, sampledPath_nth by lia.
    rewrite sample_first. f_equal. exact (Hfirst (origin, destination)).
  - intros Hpos. rewrite Hlen, Hc.
    replace (S (Z.to_nat n) - 1)%nat with (Z.to_nat n) by lia.
    rewrite sampledPath_nth by lia.
    rewrite sample_last by lia.
    f_equal. exact (Hlast (origin, destination) Hpos).
Qed.

Lemma fallback_path_samples_witness :
  0 < turf_length Sphere.turf ((0, 0), (100, 0)) /\
  exists r,
    route (simulateRoute Sphere.turf Sample.alongEquator) = Some r /\
    nth_error (route_coordinates r) 0 = Some (0, 0) /\
    nth_error (route_coordinates r) (List.length (route_coordinates r) - 1)
      = Some (100, 0).
Proof.
  assert (Hpos : 0 < turf_length Sphere.turf ((0, 0), (100, 0))).
  { rewrite equator_line_length. pose proof PI_bounds. lra. }
  split; [exact Hpos|].
  destruct (fallback_path_samples Sphere.turf Sample.alongEquator (0, 0)
              Sample.equatorEast eq_refl eq_refl Sphere_along_reaches_ends)
    as (r & Hr & _ & _ & _ & _ & H0 & Hlast).
  exists r. split; [exact Hr|]. split; [exact H0|]. exact (Hlast Hpos).
Defined.

(** C3, as stated, fails.  From (0, 0) to (0, 100 E) the step count is
    22239, and the path does not have that many points: it has 22240. *)
Lemma fallback_path_has_one_more_point :
  exists r,
    route (simulateRoute Sphere.turf Sample.alongEquator) = Some r /\
    stepCount (turf_length Sphere.turf ((0, 0), (100, 0))) = 22239%Z /\
    Z.of_nat (List.length (route_coordinates r)) = 22240%Z.
Proof.
  destruct (simulateRoute_sets Sphere.turf Sample.alongEquator (0, 0) Sample.equatorEast
              eq_refl eq_refl) as (r & Hr & Hc & _).
  simpl fst in Hc; simpl snd in Hc; simpl loc_lon in Hc; simpl loc_lat in Hc.
  assert (Hn : stepCount (turf_length Sphere.turf ((0, 0), (100, 0))) = 22239%Z).
  { rewrite equator_line_length. unfold stepCount, JS.Math_max, JS.Math_floor.
    pose proof PI_bounds as Hpi.
    rewrite (Zfloor_eq 22239) by lra. reflexivity. }
  exists r. split; [exact Hr|]. split; [exact Hn|].
  rewrite Hc, sampledPath_length, Hn. lia.
Qed.

(** ** Discovery *)

Lemma truthy_spec (o : option string) :
  JS.truthy o = true <-> exists v, o = Some v /\ v <> EmptyString.
Proof.
  destruct o as [[|c r]|]; simpl; split; try discriminate.
  - intros (v & Hv & Hne). inversion Hv; subst. now elim Hne.
  - intros _. exists (String c r). split; [reflexivity|discriminate].
  - reflexivity.
  - intros (v & Hv & _). discriminate.
Qed.

Lemma retained_spec (element : Element) :
  retained element = true <-> hasFilterTag element.
Proof.
  unfold retained, hasFilterTag, filterKeys.
  destruct (el_tags element) as [tags|].
  - rewrite !orb_true_iff, !truthy_spec. split.
    + intros [[[(v & H & Hv)|(v & H & Hv)]|(v & H & Hv)]|(v & H & Hv)];
        eexists tags, _, v; (split; [reflexivity|]); (split; [|split; eassumption]);
        simpl; auto.
    + intros (tags' & key & v & Ht & Hk & H & Hv). inversion Ht; subst tags'.
      simpl in Hk. destruct Hk as [<-|[<-|[<-|[<-|[]]]]]; eauto 7.
  - split; [discriminate|].
    intros (tags & key & v & Ht & _). discriminate.
Qed.

Lemma retainedElements_In (elements : list Element) (e : Element) :
  In e (retainedElements elements) -> In e elements /\ retained e = true.
Proof.
  unfold retainedElements. intros H.
  apply (In_nth_error _ _) in H. destruct H as [i H].
  assert (Hin : In e (filter retained elements)).
  { rewrite <- (firstn_skipn 10 (filter retained elements)).
    apply in_or_app. left. eapply nth_error_In. exact H. }
  now apply filter_In in Hin.
Qed.

Lemma overpassPlace_total (lat lon : R) (rnd : nat -> R) (elements : list Element) :
  forall k, exists places,
    mapFrom (overpassPlace lat lon rnd) k (retainedElements elements) = Some places.
Proof.
  apply mapFrom_total. intros k e He.
  apply retainedElements_In in He. destruct He as [_ He].
  unfold retained in He. unfold overpassPlace.
  destruct (el_tags e); [discriminate|discriminate].
Qed.

(** What tier 1 leaves when the reply carries elements. *)
Lemma tier1_result (T : Turf) (s : State) (lat lon : R) (status : Z)
    (e : Element) (es : list Element) (nominatim : Fetched (list NominatimPlace))
    (rnd1 rnd2 rnd3 : nat -> R) :
  exists places,
    mapFrom (overpassPlace lat lon rnd1) 0 (retainedElements (e :: es)) = Some places /\
    recommendations
      (fetchNearbyPlaces T s lat lon
         (Replied true status (Json {| ov_elements := Some (e :: es) |}))
         nominatim rnd1 rnd2 rnd3)
    = array_sort byDistance places.
Proof.
  destruct (overpassPlace_total lat lon rnd1 (e :: es) 0) as [places H].
  exists places. split; [exact H|].
  unfold fetchNearbyPlaces. cbn [ov_elements]. rewrite H. reflexivity.
Qed.

(** What tier 2 leaves when every record of a non-empty reply has a
    display name. *)
Lemma tier2_result (T : Turf) (s : State) (lat lon : R) (status : Z)
    (d : NominatimPlace) (data : list NominatimPlace) (rnd2 rnd3 : nat -> R) :
  (forall record, In record (d :: data) -> nom_display_name record <> None) ->
  exists places,
    mapFrom (nominatimPlace lat lon rnd2) 0 (d :: data) = Some places /\
    recommendations
      (fallbackToNominatim T s lat lon (Replied true status (Json (d :: data))) rnd2 rnd3)
    = array_sort byDistance places.
Proof.
  intros Hnames.
  destruct (mapFrom_total (nominatimPlace lat lon rnd2) (d :: data)) with (k := 0%nat)
    as [places H].
  { intros k record Hin. unfold nominatimPlace.
    specialize (Hnames record Hin).
    destruct (nom_display_name record); [discriminate|now elim Hnames]. }
  exists places. split; [exact H|].
  unfold fallbackToNominatim. rewrite H. reflexivity.
Qed.

(** When both services come up empty, the discovery is tier 3. *)
Lemma discovery_reaches_tier3 (T : Turf) (s : State) (lat lon : R)
    (overpass : Fetched OverpassData) (nominatim : Fetched (list NominatimPlace))
    (rnd1 rnd2 rnd3 : nat -> R) :
  overpassYieldsNothing overpass = true ->
  nominatimYieldsNothing nominatim = true ->
  fetchNearbyPlaces T s lat lon overpass nominatim rnd1 rnd2 rnd3
  = createMockPlaces T s lat lon rnd3.
Proof.
  intros Ho Hn.
  assert (F : fallbackToNominatim T s lat lon nominatim rnd2 rnd3
              = createMockPlaces T s lat lon rnd3).
  { destruct nominatim as [|[|] status [| |[|d data]]]; try reflexivity.
    discriminate. }
  destruct overpass as [|[|] status [| |[[[|e es]|]]]]; try exact F.
  discriminate.
Qed.

(** A reply whose elements are all dropped by the filter does not reach
    the later tiers: the recommendations are then empty. *)
Lemma filtered_reply_leaves_nothing (T : Turf) (s : State) (lat lon : R)
    (nominatim : Fetched (list NominatimPlace)) (rnd1 rnd2 rnd3 : nat -> R) :
  recommendations
    (fetchNearbyPlaces T s lat lon
       (Replied true 200 (Json {| ov_elements := Some [Sample.unnamedPark] |}))
       nominatim rnd1 rnd2 rnd3) = [].
Proof. reflexivity. Qed.

(** The results of the two service tiers are in ascending order. *)
Lemma service_tiers_ascending (T : Turf) (s : State) (lat lon : R) (status : Z)
    (nominatim : Fetched (list NominatimPlace)) (rnd1 rnd2 rnd3 : nat -> R) :
  (forall e es,
     ascending
       (recommendations
          (fetchNearbyPlaces T s lat lon
             (Replied true status (Json {| ov_elements := Some (e :: es) |}))
             nominatim rnd1 rnd2 rnd3))) /\
  (forall d data,
     (forall record, In record (d :: data) -> nom_display_name record <> None) ->
     ascending
       (recommendations
          (fallbackToNominatim T s lat lon (Replied true status (Json (d :: data)))
             rnd2 rnd3))).
Proof.
  split.
  - intros e es.
    destruct (tier1_result T s lat lon status e es nominatim rnd1 rnd2 rnd3)
      as (places & _ & ->).
    apply array_sort_ascending.
  - intros d data Hnames.
    destruct (tier2_result T s lat lon status d data rnd2 rnd3 Hnames)
      as (places & _ & ->).
    apply array_sort_ascending.
Qed.

Lemma mock_distance_range (r : R) : 0 <= r < 1 -> 0.5 <= 0.5 + r * 4.5 <= 5.
Proof. intros [H0 H1]. lra. Qed.

(** Tier 3 on its own.  [createMockPlaces] is a total function: for
    every origin and every sequence of draws in [0, 1) it leaves exactly 5
    places, named Central Park, Museum of Art, Historic Tower, Botanical
    Garden, City Square in that order, each projected from the origin at
    its own distance, which lies between 0.5 and 5 km, along a bearing
    under 360 degrees.  When tier 1 and tier 2 both come up empty (a
    failed request, an error status, no JSON, or no element), the
    discovery leaves exactly these places. *)
Theorem synthetic_discovery (T : Turf) (s : State) (lat lon : R) (rnd3 : nat -> R) :
  (forall k, 0 <= rnd3 k < 1) ->
  let places := recommendations (createMockPlaces T s lat lon rnd3) in
  List.length places = 5%nat /\
  map place_name places =
    ["Central Park"; "Museum of Art"; "Historic Tower"; "Botanical Garden";
     "City Square"]%string /\
  Forall (fun p =>
            0.5 <= place_distance p <= 5 /\
            exists bearing, 0 <= bearing < 360 /\
              place_location p =
              toLatLng (turf_destination T (lon, lat) (place_distance p) bearing))
         places /\
  (forall overpass nominatim rnd1 rnd2,
     overpassYieldsNothing overpass = true ->
     nominatimYieldsNothing nominatim = true ->
     recommendations (fetchNearbyPlaces T s lat lon overpass nominatim rnd1 rnd2 rnd3)
       = places /\
     recommendations (fetchNearbyPlaces T s lat lon overpass nominatim rnd1 rnd2 rnd3)
       <> []).
Proof.
  intros Hrnd places.
  split; [reflexivity|]. split; [reflexivity|].
  split.
  - unfold places. simpl.
    repeat (apply Forall_cons || apply Forall_nil);
      (split;
       [apply mock_distance_range, Hrnd
       |eexists; split; [|reflexivity];
        match goal with |- 0 <= rnd3 ?k * 360 < 360 => specialize (Hrnd k); lra end]).
  - intros overpass nominatim rnd1 rnd2 Ho Hn.
    rewrite (discovery_reaches_tier3 T s lat lon overpass nominatim rnd1 rnd2 rnd3 Ho Hn).
    split; [reflexivity|discriminate].
Qed.

Lemma unevenDraws_range (k : nat) : 0 <= Sample.unevenDraws k < 1.
Proof. destruct k; simpl; lra. Qed.

Lemma synthetic_discovery_witness :
  List.length
    (recommendations
       (fetchNearbyPlaces Sphere.turf Sample.initialState 37.7749 (-122.4194)
          NetworkError (Replied true 200 (Json []))
          Sample.zeroDraws Sample.zeroDraws Sample.unevenDraws)) = 5%nat.
Proof.
  destruct (synthetic_discovery Sphere.turf Sample.initialState 37.7749 (-122.4194)
              Sample.unevenDraws unevenDraws_range) as (Hlen & _ & _ & Hpipe).
  destruct (Hpipe NetworkError (Replied true 200 (Json [])) Sample.zeroDraws
              Sample.zeroDraws eq_refl eq_refl) as [Hrec _].
  rewrite Hrec. exact Hlen.
Defined.

(** C4, at the failing input.  The Overpass reply is ok and carries one
    element, a park without a name, which the filter drops: tier 1 yields
    no place.  The handler has tested the length of the reply before the
    filter, so it stores the empty list, opens the panel and tries no
    other tier, whatever the second service would answer; tier 3, which
    would have left 5 places, is never reached and the discovery ends
    empty. *)
Theorem discovery_all_filtered_is_empty (T : Turf)
    (nominatim : Fetched (list NominatimPlace)) :
  let reply : Fetched OverpassData :=
    Replied true 200 (Json {| ov_elements := Some [Sample.unnamedPark] |}) in
  let s' :=
    fetchNearbyPlaces T Sample.initialState 37.7749 (-122.4194) reply nominatim
      Sample.zeroDraws Sample.zeroDraws Sample.unevenDraws in
  retainedElements [Sample.unnamedPark] = [] /\
  recommendations s' = [] /\
  showRecommendations s' = true /\
  List.length
    (recommendations
       (createMockPlaces T Sample.initialState 37.7749 (-122.4194) Sample.unevenDraws))
  = 5%nat.
Proof.
  cbv zeta.
  rewrite (filtered_reply_leaves_nothing T Sample.initialState 37.7749 (-122.4194)
             nominatim Sample.zeroDraws Sample.zeroDraws Sample.unevenDraws).
  repeat split.
Qed.

(** C5, at the failing input.  Both services are unreachable, the first
    draw is 0.8 and the others are 0.1: the discovery leaves the five
    synthetic places in the order of the loop, the first at 4.1 km and the
    second at 0.95 km, which is not ascending.  (The two service tiers do
    sort: [service_tiers_ascending].) *)
Theorem synthetic_discovery_not_ascending (T : Turf) :
  let s' :=
    fetchNearbyPlaces T Sample.initialState 37.7749 (-122.4194)
      NetworkError NetworkError Sample.zeroDraws Sample.zeroDraws Sample.unevenDraws in
  (exists p0 p1 rest,
     recommendations s' = p0 :: p1 :: rest /\
     place_distance p0 = 4.1 /\ place_distance p1 = 0.95) /\
  ~ ascending (recommendations s').
Proof.
  simpl. split.
  - do 3 eexists. split; [reflexivity|]. simpl. split; lra.
  - unfold ascending. intros H.
    apply Sorted_inv in H. destruct H as [_ H].
    apply HdRel_inv in H. simpl in H. lra.
Qed.

(** C6, as stated, fails.  A park without a name has a tag of a queried
    category, and the filter drops it, alone in the reply and far below
    the cap: the filter does not look at the [leisure] tag. *)
Lemma unnamed_park_not_retained :
  hasQueriedTag Sample.unnamedPark = true /\
  retainedElements [Sample.unnamedPark] = [].
Proof. split; reflexivity. Qed.

(** C6, as the code has it.  An element passes the filter if and only if
    it has a tag object with a non-empty [name], [tourism], [historic] or
    [amenity] tag.  The retained elements are the first 10 that pass, in
    the order of the reply: each of them passes, they are at most 10, and
    when at most 10 elements pass, every one of them is retained; when
    more than 10 pass, exactly the first 10 of them are.  They are the
    elements that become recommendations. *)
Theorem element_filter_and_cap (elements : list Element) :
  (forall e, retained e = true <-> hasFilterTag e) /\
  (forall e, In e (retainedElements elements) -> In e elements /\ hasFilterTag e) /\
  (List.length (retainedElements elements) <= 10)%nat /\
  (exists rest, filter retained elements = retainedElements elements ++ rest) /\
  ((List.length (filter retained elements) <= 10)%nat ->
   forall e, In e elements /\ hasFilterTag e <-> In e (retainedElements elements)) /\
  (forall T s lat lon status e es nominatim rnd1 rnd2 rnd3,
     List.length
       (recommendations
          (fetchNearbyPlaces T s lat lon
             (Replied true status (Json {| ov_elements := Some (e :: es) |}))
             nominatim rnd1 rnd2 rnd3))
     = List.length (retainedElements (e :: es))) /\
  retainedElements elements = firstn 10 (filter retained elements) /\
  List.length (retainedElements elements)
    = Nat.min 10 (List.length (filter retained elements)) /\
  (forall i, (i < 10)%nat ->
     nth_error (retainedElements elements) i = nth_error (filter retained elements) i) /\
  ((10 < List.length (filter retained elements))%nat ->
   List.length (retainedElements elements) = 10%nat /\
   exists dropped rest,
     filter retained elements = retainedElements elements ++ dropped :: rest /\
     hasFilterTag dropped /\ In dropped elements).
Proof.
  split; [exact retained_spec|].
  split.
  { intros e He. apply retainedElements_In in He.
    destruct He as [Hin Hr]. split; [exact Hin|now apply retained_spec]. }
  split; [unfold retainedElements; apply firstn_le_length|].
  split.
  { exists (skipn 10 (filter retained elements)).
    unfold retainedElements. now rewrite firstn_skipn. }
  split.
  { intros Hle e. split.
    - intros [Hin Hf]. unfold retainedElements.
      rewrite firstn_all2 by exact Hle.
      apply filter_In. split; [exact Hin|now apply retained_spec].
    - intros He. apply retainedElements_In in He.
      destruct He as [Hin Hr]. split; [exact Hin|now apply retained_spec]. }
  split.
  { intros T s lat lon status e es nominatim rnd1 rnd2 rnd3.
    destruct (tier1_result T s lat lon status e es nominatim rnd1 rnd2 rnd3)
      as (places & Hmap & ->).
    rewrite array_sort_length. exact (mapFrom_length _ _ _ _ Hmap). }
  split; [reflexivity|].
  split; [unfold retainedElements; apply length_firstn|].
  split.
  { intros i Hi. unfold retainedElements. rewrite nth_error_firstn.
    destruct (Nat.ltb_spec i 10); [reflexivity|lia]. }
  intros Hmore.
  assert (Hlen : List.length (retainedElements elements) = 10%nat).
  { unfold retainedElements. rewrite length_firstn. lia. }
  split; [exact Hlen|].
  destruct (skipn 10 (filter retained elements)) as [|dropped rest] eqn:Hskip.
  - exfalso.
    pose proof (length_skipn 10 (filter retained elements)) as Hs.
    rewrite Hskip in Hs. simpl in Hs. lia.
  - exists dropped, rest.
    assert (Hsplit : filter retained elements
                     = retainedElements elements ++ dropped :: rest).
    { unfold retainedElements. rewrite <- Hskip. now rewrite firstn_skipn. }
    split; [exact Hsplit|].
    assert (Hin : In dropped (filter retained elements)).
    { rewrite Hsplit. apply in_or_app. right. now left. }
    apply filter_In in Hin. destruct Hin as [Hin Hr].
    split; [now apply retained_spec|exact Hin].
Qed.


Lemma pick3_in_range (a b c : string) (r : R) :
  0 <= r < 1 -> In (JS.pick3 [a; b; c] r) [Some a; Some b; Some c].
Proof.
  intros [H0 H1]. unfold JS.pick3, JS.Math_floor.
  destruct (Zfloor_bound (r * 3)) as [Hlo Hhi].
  assert (Hk : (0 <= Zfloor (r * 3) < 3)%Z).
  { split.
    - apply Zfloor_lub. simpl. lra.
    - apply lt_IZR. lra. }
  destruct (Z.ltb_spec (Zfloor (r * 3)) 0); [lia|].
  assert (Hc : Zfloor (r * 3) = 0%Z \/ Zfloor (r * 3) = 1%Z \/ Zfloor (r * 3) = 2%Z) by lia.
  destruct Hc as [->|[->| ->]]; simpl; auto.
Qed.




Lemma zeroDraws_range (k : nat) : 0 <= Sample.zeroDraws k < 1.
Proof. unfold Sample.zeroDraws. lra. Qed.



(** ** The primitives on small inputs *)

Example first_segment_of_address :
  JS.first_segment "Oakland, Alameda County, California" = "Oakland"%string.
Proof. reflexivity. Qed.

Example first_segment_without_comma : JS.first_segment "Oakland" = "Oakland"%string.
Proof. reflexivity. Qed.

Example capitalize_tag : JS.capitalize "museum" = "Museum"%string.
Proof. reflexivity. Qed.

Example or_default_empty :
  JS.or_default (Some EmptyString) "Tourist Attraction" = "Tourist Attraction"%string.
Proof. reflexivity. Qed.

Example mock_identifier : JS.string_of_Z 4 = "4"%string.
Proof. reflexivity. Qed.

Example routingProfile_walking : routingProfile "foot-walking" = "foot"%string.
Proof. reflexivity. Qed.

Example Math_round_half : JS.Math_round 2.5 = 3%Z.
Proof. unfold JS.Math_round. apply Zfloor_eq. simpl. lra. Qed.

Example Math_round_negative_half : JS.Math_round (-2.5) = (-2)%Z.
Proof. unfold JS.Math_round. apply Zfloor_eq. simpl. lra. Qed.

Example toFixed1_distance : JS.toFixed1 13.44 = "13.4"%string.
Proof.
  unfold JS.toFixed1.
  destruct (Rlt_dec 13.44 0); [lra|].
  rewrite Rabs_pos_eq by lra.
  rewrite (Zfloor_eq 134) by (simpl; lra). reflexivity.
Qed.

Example rem_of_negative : JS.rem (-370) 360 = -10.
Proof.
  unfold JS.rem, JS.trunc.
  destruct (Rle_dec 0 (-370 / 360)); [lra|].
  unfold Zceil. rewrite (Zfloor_eq 1) by (simpl; lra). simpl. lra.
Qed.

Example named_cafe_is_retained :
  retained {| el_id := 1; el_tags := Some [("amenity", "cafe"); ("name", "Blue Bottle")]%string;
              el_lat := Some 37.78; el_lon := Some (-122.41); el_center := None |} = true.
Proof. reflexivity. Qed.

Example untagged_node_is_dropped :
  retained {| el_id := 2; el_tags := None; el_lat := Some 37.78;
              el_lon := Some (-122.41); el_center := None |} = false.
Proof. reflexivity. Qed.

Example sort_three :
  map place_distance
    (array_sort byDistance
       (map (fun d => {| place_id := IdNum 0; place_name := EmptyString;
                         place_description := EmptyString;
                         place_image := EmptyString; place_rating := EmptyString; place_crowdLevel := None;
                         place_bestTime := None; place_category := None;
                         place_location := (0, 0); place_distance := d |})
            [3; 1; 2]))
  = [1; 2; 3].
Proof.
  simpl. unfold byDistance; simpl.
  repeat (match goal with
          | |- context [Rle_dec ?a ?b] => destruct (Rle_dec a b); try lra
          end; simpl).
  reflexivity.
Qed.

(** * Further properties *)

(** ** The Haversine distance *)

(** X1. [calculateDistance] is symmetric: the distance from a to b is the
    distance from b to a. *)
Theorem calculateDistance_symmetric (lat1 lon1 lat2 lon2 : R) :
  calculateDistance lat1 lon1 lat2 lon2 = calculateDistance lat2 lon2 lat1 lon1.
Proof.
  unfold calculateDistance.
  replace ((lat1 - lat2) * PI / 180 / 2) with (- ((lat2 - lat1) * PI / 180 / 2)) by lra.
  replace ((lon1 - lon2) * PI / 180 / 2) with (- ((lon2 - lon1) * PI / 180 / 2)) by lra.
  rewrite !sin_neg.
  match goal with
  | |- _ * (2 * JS.Math_atan2 (sqrt ?a) _) = _ * (2 * JS.Math_atan2 (sqrt ?b) _) =>
      replace b with a by ring
  end.
  reflexivity.
Qed.

Lemma haversine_same_point (lat lon : R) : calculateDistance lat lon lat lon = 0.
Proof.
  unfold calculateDistance.
  replace ((lat - lat) * PI / 180 / 2) with 0 by lra.
  replace ((lon - lon) * PI / 180 / 2) with 0 by lra.
  rewrite sin_0.
  match goal with
  | |- _ * (2 * JS.Math_atan2 (sqrt ?a) _) = _ => replace a with 0 by ring
  end.
  rewrite Rminus_0_r, sqrt_0, sqrt_1, Math_atan2_right by lra.
  replace (0 / 1) with 0 by lra. rewrite atan_0. lra.
Qed.

(** X2. [calculateDistance] of a point to itself is 0. *)
Theorem calculateDistance_same_point (lat lon : R) :
  calculateDistance lat lon lat lon = 0.
Proof. apply haversine_same_point. Qed.

Lemma Math_atan2_quadrant (y x : R) :
  0 <= y -> 0 <= x -> 0 <= JS.Math_atan2 y x <= PI / 2.
Proof.
  intros Hy Hx. pose proof PI_RGT_0 as Hpi.
  unfold JS.Math_atan2.
  destruct (total_order_T x 0) as [[Hlt|Heq]|Hgt]; [lra| |].
  - destruct (total_order_T y 0) as [[Hlt|Heq']|Hgt]; lra.
  - assert (Hq : 0 <= y / x).
    { apply Rmult_le_pos; [exact Hy|]. left. now apply Rinv_0_lt_compat. }
    pose proof (atan_bound (y / x)) as [_ Hub].
    split; [|lra].
    destruct Hq as [Hq|<-]; [|rewrite atan_0; lra].
    left. rewrite <- atan_0. now apply atan_increasing.
Qed.

Lemma haversine_range (lat1 lon1 lat2 lon2 : R) :
  0 <= calculateDistance lat1 lon1 lat2 lon2 <= 6371 * PI.
Proof.
  unfold calculateDistance.
  match goal with
  | |- _ <= _ * (2 * JS.Math_atan2 (sqrt ?a) (sqrt ?b)) <= _ =>
      pose proof (Math_atan2_quadrant (sqrt a) (sqrt b) (sqrt_pos a) (sqrt_pos b)) as H
  end.
  lra.
Qed.

(** ** Locating the user *)

(** Every outcome of geolocation leaves a user location. *)
Lemma getUserLocation_locates (hasInitial : bool) (s : State)
    (outcome : Geolocation) :
  let r := getUserLocation hasInitial s outcome in
  (exists lat lon,
     userLocation (fst r) = Some (lat, lon) /\
     snd r = [FetchNearbyPlacesCall lat lon]) /\
  isLoadingLocation (fst r) = false /\
  selectedLocation (fst r) = selectedLocation s /\
  route (fst r) = route s /\
  recommendations (fst r) = recommendations s /\
  achievement (fst r) = achievement s.
Proof.
  destruct outcome as [|lat lon|message]; simpl.
  - split; [exists 37.7749, (-122.4194); split; reflexivity|now repeat split].
  - destruct (selectedLocation s) eqn:E, hasInitial; simpl; rewrite ?E;
      (split; [exists lat, lon; split; reflexivity|now repeat split]).
  - split; [exists 37.7749, (-122.4194); split; reflexivity|now repeat split].
Qed.

(** X4. Whatever the outcome of geolocation, [getUserLocation] ends with a
    user location known and loading finished, starts exactly one discovery
    at that location, and leaves the destination, the route, the
    recommendations and the achievement as they were. *)
Theorem getUserLocation_always_locates (hasInitial : bool) (s : State)
    (outcome : Geolocation) :
  let r := getUserLocation hasInitial s outcome in
  (exists lat lon,
     userLocation (fst r) = Some (lat, lon) /\
     snd r = [FetchNearbyPlacesCall lat lon]) /\
  isLoadingLocation (fst r) = false /\
  selectedLocation (fst r) = selectedLocation s /\
  route (fst r) = route s /\
  recommendations (fst r) = recommendations s /\
  achievement (fst r) = achievement s.
Proof. apply getUserLocation_locates. Qed.

(** X5. The success callback stores the reading as the user location,
    ends loading and starts one discovery at the reading.  It tests the
    destination of the render that called [getUserLocation], not the one
    selected when it runs: exactly when that render had no destination and
    no initial place was supplied, the position and the map view move to
    the reading, whatever was selected in the meantime; otherwise they are
    left alone.  Nothing else changes.  When the request settles right
    after the call, the error string is cleared as well. *)
Theorem getUserLocation_success (hasInitial : bool) (closure current : State)
    (lat lon : R) :
  let r := onPosition hasInitial closure current lat lon in
  snd r = [FetchNearbyPlacesCall lat lon] /\
  userLocation (fst r) = Some (lat, lon) /\
  isLoadingLocation (fst r) = false /\
  selectedLocation (fst r) = selectedLocation current /\
  locationError (fst r) = locationError current /\
  (selectedLocation closure = None -> hasInitial = false ->
   fst r = setIsLoadingLocation false
             (withMap (SetView (lat, lon) 13)
                (setPosition (lat, lon) (setUserLocation (Some (lat, lon)) current)))) /\
  (selectedLocation closure <> None \/ hasInitial = true ->
   fst r = setIsLoadingLocation false (setUserLocation (Some (lat, lon)) current)) /\
  getUserLocation hasInitial closure (GeoPosition lat lon)
    = onPosition hasInitial closure (startLocating closure) lat lon /\
  locationError (fst (getUserLocation hasInitial closure (GeoPosition lat lon))) = None.
Proof.
  unfold onPosition. cbv zeta.
  split; [reflexivity|].
  split; [destruct (selectedLocation closure), hasInitial; reflexivity|].
  split; [destruct (selectedLocation closure), hasInitial; reflexivity|].
  split; [destruct (selectedLocation closure), hasInitial; reflexivity|].
  split; [destruct (selectedLocation closure), hasInitial; reflexivity|].
  split; [intros -> ->; reflexivity|].
  split.
  { intros [H | ->].
    - destruct (selectedLocation closure); [reflexivity|now elim H].
    - destruct (selectedLocation closure); reflexivity. }
  split; [reflexivity|].
  unfold getUserLocation, onPosition. cbv zeta.
  destruct (selectedLocation closure), hasInitial; reflexivity.
Qed.

(** X6. Once a user location is known, [handleLocateMe] only recentres the
    view on it: no geolocation request is made, whatever it would answer,
    and nothing but the position and the map view changes.  In particular,
    after a failed geolocation the button recentres on the fallback
    coordinate and does not retry. *)
Theorem handleLocateMe_recentres (hasInitial : bool) (s : State) (user : LatLng)
    (outcome : Geolocation) :
  userLocation s = Some user ->
  let r := handleLocateMe hasInitial s outcome in
  snd r = [] /\
  position (fst r) = user /\
  mapRef (fst r) = option_map (fun _ => SetView user 13) (mapRef s) /\
  userLocation (fst r) = Some user /\
  locationError (fst r) = locationError s /\
  isLoadingLocation (fst r) = isLoadingLocation s /\
  selectedLocation (fst r) = selectedLocation s /\
  route (fst r) = route s /\
  recommendations (fst r) = recommendations s /\
  showRecommendations (fst r) = showRecommendations s /\
  transportMode (fst r) = transportMode s /\
  achievement (fst r) = achievement s /\
  fst r =
    {| position := user;
       showRecommendations := showRecommendations s;
       selectedLocation := selectedLocation s;
       route := route s;
       transportMode := transportMode s;
       userLocation := userLocation s;
       recommendations := recommendations s;
       achievement := achievement s;
       locationError := locationError s;
       isLoadingLocation := isLoadingLocation s;
       mapRef := option_map (fun _ => SetView user 13) (mapRef s) |}.
Proof.
  intros Hu. unfold handleLocateMe. rewrite Hu. cbn. rewrite ?Hu.
  repeat split.
  unfold withMap, setPosition. cbn. rewrite Hu. reflexivity.
Qed.

Lemma handleLocateMe_recentres_witness :
  let failed := fst (getUserLocation false Sample.initialState (GeoError "User denied Geolocation")) in
  let r := handleLocateMe false failed (GeoPosition 48.8566 2.3522) in
  snd r = [] /\ position (fst r) = (37.7749, -122.4194) /\
  userLocation (fst r) = Some (37.7749, -122.4194).
Proof.
  destruct (handleLocateMe_recentres false
              (fst (getUserLocation false Sample.initialState
                      (GeoError "User denied Geolocation")))
              (37.7749, -122.4194) (GeoPosition 48.8566 2.3522) eq_refl)
    as (H1 & H2 & _ & H3 & _).
  exact (conj H1 (conj H2 H3)).
Defined.

(** ** Map events *)

(** X7. A map click whose reverse geocoding fails, does not parse, or
    parses to [null] changes nothing.  Otherwise the destination takes the
    name of the geocoded record and the coordinates of the click itself
    (not those of the record), the view is centred on the click and the
    route is cleared. *)
Theorem mapClick_selects_clicked_point (s : State) (lat lng : R) :
  mapClick s lat lng NetworkError = s /\
  (forall ok status, mapClick s lat lng (Replied ok status NotJson) = s) /\
  (forall ok status, mapClick s lat lng (Replied ok status JsonNull) = s) /\
  (forall ok status data,
     let s' := mapClick s lat lng (Replied ok status (Json data)) in
     (exists selected,
        selectedLocation s' = Some selected /\
        loc_display_name selected = loc_display_name data /\
        loc_lat selected = lat /\ loc_lon selected = lng) /\
     position s' = (lat, lng) /\
     route s' = None /\
     userLocation s' = userLocation s).
Proof.
  split; [reflexivity|]. split; [reflexivity|]. split; [reflexivity|].
  intros ok status data. simpl. split; [|now repeat split].
  eexists. split; [reflexivity|]. now repeat split.
Qed.

(** X8. [handleZoomEnd] asks for the globe view exactly when the zoom is
    below 3 and the flat view exactly when it is 3 or more, and makes no
    call when the view already is the one the zoom asks for. *)
Theorem handleZoomEnd_tracks_zoom (isGlobeView : bool) (zoom : R) :
  match handleZoomEnd isGlobeView zoom with
  | Some true => zoom < 3 /\ isGlobeView = false
  | Some false => 3 <= zoom /\ isGlobeView = true
  | None => (isGlobeView = true <-> zoom < 3)
  end.
Proof.
  unfold handleZoomEnd.
  destruct (Rlt_dec zoom 3) as [H|H], isGlobeView; simpl.
  - tauto.
  - now split.
  - split; [lra|reflexivity].
  - split; [discriminate|intros; lra].
Qed.

(** ** Discovery, tier by tier *)

Lemma sort_insert_Permutation {A : Type} (cmp : A -> A -> R) (x : A) (l : list A) :
  Permutation (x :: l) (sort_insert cmp x l).
Proof.
  induction l as [|y l IH]; simpl; [reflexivity|].
  destruct (Rle_dec (cmp x y) 0); [reflexivity|].
  rewrite perm_swap. now apply perm_skip.
Qed.

Lemma array_sort_Permutation {A : Type} (cmp : A -> A -> R) (l : list A) :
  Permutation l (array_sort cmp l).
Proof.
  induction l as [|x l IH]; simpl; [reflexivity|].
  rewrite <- sort_insert_Permutation. now apply perm_skip.
Qed.

(** The two ways [fallbackToNominatim] ends. *)
Lemma fallbackToNominatim_cases (T : Turf) (s : State) (lat lon : R)
    (reply : Fetched (list NominatimPlace)) (rnd2 rnd3 : nat -> R) :
  fallbackToNominatim T s lat lon reply rnd2 rnd3 = createMockPlaces T s lat lon rnd3 \/
  exists status d data places,
    reply = Replied true status (Json (d :: data)) /\
    mapFrom (nominatimPlace lat lon rnd2) 0 (d :: data) = Some places /\
    fallbackToNominatim T s lat lon reply rnd2 rnd3
    = setShowRecommendations true (setRecommendations (array_sort byDistance places) s).
Proof.
  destruct reply as [|[|] status [| |[|d data]]]; try (left; reflexivity).
  unfold fallbackToNominatim.
  destruct (mapFrom (nominatimPlace lat lon rnd2) 0 (d :: data)) as [places|] eqn:E.
  - right. now exists status, d, data, places.
  - now left.
Qed.

(** The two ways [fetchNearbyPlaces] ends. *)
Lemma fetchNearbyPlaces_cases (T : Turf) (s : State) (lat lon : R)
    (overpass : Fetched OverpassData) (nominatim : Fetched (list NominatimPlace))
    (rnd1 rnd2 rnd3 : nat -> R) :
  (exists status data e es places,
     overpass = Replied true status (Json data) /\
     ov_elements data = Some (e :: es) /\
     mapFrom (overpassPlace lat lon rnd1) 0 (retainedElements (e :: es)) = Some places /\
     fetchNearbyPlaces T s lat lon overpass nominatim rnd1 rnd2 rnd3
     = setShowRecommendations true (setRecommendations (array_sort byDistance places) s)) \/
  (overpassYieldsNothing overpass = true /\
   fetchNearbyPlaces T s lat lon overpass nominatim rnd1 rnd2 rnd3
   = fallbackToNominatim T s lat lon nominatim rnd2 rnd3).
Proof.
  destruct overpass as [|[|] status [| |[[[|e es]|]]]]; try (right; split; reflexivity).
  left.
  destruct (overpassPlace_total lat lon rnd1 (e :: es) 0) as [places H].
  exists status, {| ov_elements := Some (e :: es) |}, e, es, places.
  split; [reflexivity|]. split; [reflexivity|]. split; [exact H|].
  unfold fetchNearbyPlaces. cbn [ov_elements]. now rewrite H.
Qed.

(** X9. Whatever the services reply, a discovery only replaces the
    recommendations and opens their panel: the position, the destination,
    the route, the transport mode, the user location, the achievement, the
    error string, the loading flag and the map view are left as they
    were. *)
Theorem discovery_only_sets_recommendations (T : Turf) (s : State) (lat lon : R)
    (overpass : Fetched OverpassData) (nominatim : Fetched (list NominatimPlace))
    (rnd1 rnd2 rnd3 : nat -> R) :
  let s' := fetchNearbyPlaces T s lat lon overpass nominatim rnd1 rnd2 rnd3 in
  s' = setShowRecommendations true (setRecommendations (recommendations s') s).
Proof.
  destruct (fetchNearbyPlaces_cases T s lat lon overpass nominatim rnd1 rnd2 rnd3)
    as [(status & data & e & es & places & _ & _ & _ & ->)|[_ ->]]; [reflexivity|].
  destruct (fallbackToNominatim_cases T s lat lon nominatim rnd2 rnd3)
    as [->|(status & d & data & places & _ & _ & ->)]; reflexivity.
Qed.

(** X10. A discovery leaves an empty list of recommendations in one case
    only: the Overpass reply carries elements and the filter drops them
    all. *)
Theorem discovery_empty_only_when_all_filtered (T : Turf) (s : State) (lat lon : R)
    (overpass : Fetched OverpassData) (nominatim : Fetched (list NominatimPlace))
    (rnd1 rnd2 rnd3 : nat -> R) :
  recommendations (fetchNearbyPlaces T s lat lon overpass nominatim rnd1 rnd2 rnd3) = []
  <->
  exists status data e es,
    overpass = Replied true status (Json data) /\
    ov_elements data = Some (e :: es) /\
    Forall (fun element => retained element = false) (e :: es).
Proof.
  assert (Hnone : forall l, Forall (fun element => retained element = false) l
                            <-> filter retained l = []).
  { induction l as [|x l IH]; simpl; [split; constructor|].
    split.
    - intros H. inversion H as [|? ? Hx Hl]; subst. rewrite Hx. now apply IH.
    - destruct (retained x) eqn:Hx; [discriminate|].
      intros H. constructor; [exact Hx|now apply IH]. }
  assert (Hret : forall l, retainedElements l = [] <-> filter retained l = []).
  { intros l. unfold retainedElements.
    destruct (filter retained l); simpl; split; intros H; try reflexivity; discriminate. }
  destruct (fetchNearbyPlaces_cases T s lat lon overpass nominatim rnd1 rnd2 rnd3)
    as [(status & data & e & es & places & Ho & He & Hmap & ->)|[Ho ->]].
  - cbn [recommendations setShowRecommendations setRecommendations].
    pose proof (mapFrom_length _ _ _ _ Hmap) as Hlen.
    pose proof (array_sort_length byDistance places) as Hsort.
    split.
    + intros H. rewrite H in Hsort. simpl in Hsort.
      exists status, data, e, es. split; [exact Ho|]. split; [exact He|].
      apply Hnone, Hret.
      destruct (retainedElements (e :: es)); [reflexivity|].
      simpl in Hlen. lia.
    + intros (status' & data' & e' & es' & Ho' & He' & Hall).
      rewrite Ho in Ho'. inversion Ho'; subst data'.
      rewrite He in He'. inversion He'; subst e' es'.
      apply Hnone, Hret in Hall. rewrite Hall in Hlen. simpl in Hlen.
      destruct (array_sort byDistance places); [reflexivity|].
      simpl in Hsort. lia.
  - split.
    + intros H. exfalso.
      destruct (fallbackToNominatim_cases T s lat lon nominatim rnd2 rnd3)
        as [E|(status & d & data & places & _ & Hmap & E)]; rewrite E in H.
      * discriminate.
      * cbn [recommendations setShowRecommendations setRecommendations] in H.
        pose proof (mapFrom_length _ _ _ _ Hmap) as Hlen.
        pose proof (array_sort_length byDistance places) as Hsort.
        rewrite H in Hsort. simpl in Hsort, Hlen. lia.
    + intros (status & data & e & es & Ho' & He & _).
      subst overpass. simpl in Ho. rewrite He in Ho. discriminate.
Qed.

(** X11. The tiers are tried in order.  When the Overpass reply carries an
    element, the result does not depend on the Nominatim reply nor on the
    draws of the later tiers; when tier 2 answers with named records, the
    result does not depend on the draws of tier 3. *)
Theorem discovery_tiers_in_order (T : Turf) (s : State) (lat lon : R) (status : Z)
    (rnd1 rnd2 rnd3 rnd2' rnd3' : nat -> R) :
  (forall data e es nominatim nominatim',
     ov_elements data = Some (e :: es) ->
     fetchNearbyPlaces T s lat lon (Replied true status (Json data)) nominatim
       rnd1 rnd2 rnd3
     = fetchNearbyPlaces T s lat lon (Replied true status (Json data)) nominatim'
         rnd1 rnd2' rnd3') /\
  (forall d data,
     (forall record, In record (d :: data) -> nom_display_name record <> None) ->
     fallbackToNominatim T s lat lon (Replied true status (Json (d :: data))) rnd2 rnd3
     = fallbackToNominatim T s lat lon (Replied true status (Json (d :: data))) rnd2 rnd3').
Proof.
  split.
  - intros data e es nominatim nominatim' He.
    destruct (overpassPlace_total lat lon rnd1 (e :: es) 0) as [places H].
    unfold fetchNearbyPlaces. rewrite He, H. reflexivity.
  - intros d data Hnames.
    destruct (tier2_result T s lat lon status d data rnd2 rnd3 Hnames)
      as (places & Hmap & _).
    unfold fallbackToNominatim. rewrite Hmap. reflexivity.
Qed.

Lemma mapFrom_map {A B C : Type} (f : nat -> A -> option B) (g : B -> C) (h : A -> C)
    (l : list A) :
  (forall k x y, f k x = Some y -> g y = h x) ->
  forall k ys, mapFrom f k l = Some ys -> map g ys = map h l.
Proof.
  intros Hgh. induction l as [|x l IH]; simpl; intros k ys H.
  - now inversion H.
  - destruct (f k x) as [y|] eqn:Ef; [|discriminate].
    destruct (mapFrom f (S k) l) as [ys'|] eqn:E; [|discriminate].
    inversion H; subst; simpl. f_equal; [now apply (Hgh k)|now apply (IH (S k))].
Qed.

(** Every recommendation of a tier-1 result is the image of a retained
    element. *)
Lemma tier1_recommendation_source (T : Turf) (s : State) (lat lon : R) (status : Z)
    (e : Element) (es : list Element) (nominatim : Fetched (list NominatimPlace))
    (rnd1 rnd2 rnd3 : nat -> R) :
  Forall (fun p =>
            exists index element tags,
              nth_error (retainedElements (e :: es)) index = Some element /\
              el_tags element = Some tags /\
              retained element = true /\
              overpassPlace lat lon rnd1 index element = Some p)
         (recommendations
            (fetchNearbyPlaces T s lat lon
               (Replied true status (Json {| ov_elements := Some (e :: es) |}))
               nominatim rnd1 rnd2 rnd3)).
Proof.
  destruct (tier1_result T s lat lon status e es nominatim rnd1 rnd2 rnd3)
    as (places & Hmap & ->).
  apply Forall_forall. intros p Hp. apply array_sort_In in Hp.
  destruct (mapFrom_In _ _ _ _ _ Hmap Hp) as (i & element & Hi & Hf).
  simpl in Hf.
  assert (Hr : retained element = true).
  { apply (retainedElements_In (e :: es)). eapply nth_error_In. exact Hi. }
  destruct (el_tags element) as [tags|] eqn:Ht.
  - now exists i, element, tags.
  - unfold overpassPlace in Hf. rewrite Ht in Hf. discriminate.
Qed.

(** X12. A tier-1 result holds one recommendation for each retained
    element, under the element's identifier, in ascending order of
    distance. *)
Theorem tier1_sorted_one_per_element (T : Turf) (s : State) (lat lon : R) (status : Z)
    (e : Element) (es : list Element) (nominatim : Fetched (list NominatimPlace))
    (rnd1 rnd2 rnd3 : nat -> R) :
  let places :=
    recommendations
      (fetchNearbyPlaces T s lat lon
         (Replied true status (Json {| ov_elements := Some (e :: es) |}))
         nominatim rnd1 rnd2 rnd3) in
  ascending places /\
  Permutation (map place_id places)
              (map (fun element => IdNum (el_id element)) (retainedElements (e :: es))).
Proof.
  destruct (tier1_result T s lat lon status e es nominatim rnd1 rnd2 rnd3)
    as (places & Hmap & Hrec).
  cbv zeta. rewrite Hrec. split; [apply array_sort_ascending|].
  rewrite <- (array_sort_Permutation byDistance places).
  erewrite (mapFrom_map _ place_id (fun element => IdNum (el_id element)));
    [reflexivity| |exact Hmap].
  intros k x y H. unfold overpassPlace in H.
  destruct (el_tags x); [|discriminate]. now inversion H.
Qed.

Lemma capitalize_nonempty (c : ascii) (rest : string) :
  JS.capitalize (String c rest) <> EmptyString.
Proof. discriminate. Qed.

(** X13. The labels of a tier-1 recommendation come from the tags of its
    element.  The name is the [name] tag when it is not empty, and
    otherwise the capitalised value of the first non-empty tag among
    [tourism], [historic], [amenity]; it is never empty, and the
    positional placeholder is never reached.  The category and the
    description are one label: the capitalised first non-empty value among
    [tourism], [historic], [amenity], or [Point of Interest] when the
    element has none of them. *)
Theorem tier1_labels (T : Turf) (s : State) (lat lon : R) (status : Z)
    (e : Element) (es : list Element) (nominatim : Fetched (list NominatimPlace))
    (rnd1 rnd2 rnd3 : nat -> R) :
  Forall (fun p =>
            exists element tags,
              In element (retainedElements (e :: es)) /\
              el_tags element = Some tags /\
              place_id p = IdNum (el_id element) /\
              let label :=
                JS.or_else (JS.or_else (tag "tourism" tags) (tag "historic" tags))
                           (tag "amenity" tags) in
              place_name p <> EmptyString /\
              place_name p =
                (if JS.truthy (tag "name" tags)
                 then JS.or_default (tag "name" tags) EmptyString
                 else JS.capitalize (JS.or_default label EmptyString)) /\
              (JS.truthy (tag "name" tags) = false -> JS.truthy label = true) /\
              place_description p = JS.capitalize (JS.or_default label "Point of Interest") /\
              place_category p = Some (place_description p))
         (recommendations
            (fetchNearbyPlaces T s lat lon
               (Replied true status (Json {| ov_elements := Some (e :: es) |}))
               nominatim rnd1 rnd2 rnd3)).
Proof.
  eapply Forall_impl;
    [|exact (tier1_recommendation_source T s lat lon status e es nominatim rnd1 rnd2 rnd3)].
  intros p (index & element & tags & Hi & Ht & Hr & Hp).
  exists element, tags.
  split; [eapply nth_error_In; exact Hi|]. split; [exact Ht|].
  unfold overpassPlace in Hp. rewrite Ht in Hp. inversion Hp; subst p; clear Hp.
  cbn [place_id place_name place_description place_category].
  split; [reflexivity|].
  unfold retained in Hr. rewrite Ht in Hr.
  destruct (tag "name" tags) as [[|c0 r0]|];
    destruct (tag "tourism" tags) as [[|c1 r1]|];
    destruct (tag "historic" tags) as [[|c2 r2]|];
    destruct (tag "amenity" tags) as [[|c3 r3]|];
    try discriminate Hr;
    cbn; repeat split; try discriminate; try reflexivity.
Qed.

(** X14. A tier-1 recommendation takes its coordinates from the element,
    else from the element's centre, else from the query origin, a
    coordinate of exactly 0 counting as missing.  An element with neither
    coordinates nor centre is therefore placed on the origin itself, at
    distance 0. *)
Theorem tier1_missing_coordinates (T : Turf) (s : State) (lat lon : R) (status : Z)
    (e : Element) (es : list Element) (nominatim : Fetched (list NominatimPlace))
    (rnd1 rnd2 rnd3 : nat -> R) :
  Forall (fun p =>
            exists element,
              In element (retainedElements (e :: es)) /\
              place_id p = IdNum (el_id element) /\
              (forall v, el_lat element = Some v -> v <> 0 -> fst (place_location p) = v) /\
              (el_lat element = None \/ el_lat element = Some 0 ->
               fst (place_location p) =
               match el_center element with Some c => fst c | None => lat end) /\
              (forall v, el_lon element = Some v -> v <> 0 -> snd (place_location p) = v) /\
              (el_lon element = None \/ el_lon element = Some 0 ->
               snd (place_location p) =
               match el_center element with Some c => snd c | None => lon end) /\
              (el_lat element = None -> el_lon element = None ->
               el_center element = None ->
               place_location p = (lat, lon) /\ place_distance p = 0))
         (recommendations
            (fetchNearbyPlaces T s lat lon
               (Replied true status (Json {| ov_elements := Some (e :: es) |}))
               nominatim rnd1 rnd2 rnd3)).
Proof.
  eapply Forall_impl;
    [|exact (tier1_recommendation_source T s lat lon status e es nominatim rnd1 rnd2 rnd3)].
  intros p (index & element & tags & Hi & Ht & Hr & Hp).
  exists element.
  split; [eapply nth_error_In; exact Hi|].
  unfold overpassPlace in Hp. rewrite Ht in Hp. inversion Hp; subst p; clear Hp.
  cbn [place_id place_location place_distance fst snd].
  split; [reflexivity|].
  unfold JS.num_or.
  split; [|split; [|split; [|split]]].
  - intros v -> Hv. destruct (Req_dec_T v 0); [contradiction|reflexivity].
  - intros [-> | ->]; [reflexivity|].
    destruct (Req_dec_T 0 0); [reflexivity|lra].
  - intros v -> Hv. destruct (Req_dec_T v 0); [contradiction|reflexivity].
  - intros [-> | ->]; [reflexivity|].
    destruct (Req_dec_T 0 0); [reflexivity|lra].
  - intros -> -> ->. split; [reflexivity|apply haversine_same_point].
Qed.

(** X15. In the results of tiers 1 and 2 the distance of a recommendation
    is the Haversine distance from the query origin to the location the
    recommendation itself carries; it is never negative. *)
Theorem service_tiers_distance_matches_location (T : Turf) (s : State) (lat lon : R)
    (status : Z) (nominatim : Fetched (list NominatimPlace)) (rnd1 rnd2 rnd3 : nat -> R) :
  let consistent (p : Place) :=
    place_distance p =
      calculateDistance lat lon (fst (place_location p)) (snd (place_location p)) /\
    0 <= place_distance p in
  (forall e es,
     Forall consistent
       (recommendations
          (fetchNearbyPlaces T s lat lon
             (Replied true status (Json {| ov_elements := Some (e :: es) |}))
             nominatim rnd1 rnd2 rnd3))) /\
  (forall places,
     nominatim = Replied true status (Json places) ->
     Forall (fun record => nom_display_name record <> None) places ->
     places <> [] ->
     Forall consistent
       (recommendations (fallbackToNominatim T s lat lon nominatim rnd2 rnd3))).
Proof.
  intros consistent. split.
  - intros e es.
    eapply Forall_impl;
      [|exact (tier1_recommendation_source T s lat lon status e es nominatim rnd1 rnd2 rnd3)].
    intros p (index & element & tags & _ & Ht & _ & Hp).
    unfold overpassPlace in Hp. rewrite Ht in Hp. inversion Hp; subst p; clear Hp.
    unfold consistent. cbn [place_distance place_location fst snd].
    split; [reflexivity|apply haversine_range].
  - intros [|d data] -> Hnames Hne; [now elim Hne|].
    rewrite Forall_forall in Hnames.
    destruct (tier2_result T s lat lon status d data rnd2 rnd3 Hnames)
      as (places & Hmap & ->).
    apply Forall_forall. intros p Hp. apply array_sort_In in Hp.
    destruct (mapFrom_In _ _ _ _ _ Hmap Hp) as (i & record & _ & Hf).
    unfold nominatimPlace in Hf.
    destruct (nom_display_name record); [|discriminate].
    inversion Hf; subst p; clear Hf.
    unfold consistent. cbn [place_distance place_location fst snd].
    split; [reflexivity|apply haversine_range].
Qed.

Lemma mapFrom_raises {A B : Type} (f : nat -> A -> option B) (l : list A) (x : A) :
  In x l -> (forall k, f k x = None) -> forall k, mapFrom f k l = None.
Proof.
  induction l as [|y l IH]; simpl; intros Hin Hx k; [destruct Hin|].
  destruct Hin as [->|Hin].
  - now rewrite Hx.
  - destruct (f k y); [|reflexivity]. now rewrite (IH Hin Hx (S k)).
Qed.

(** X16. A tier-2 result built from records that all have a display name
    holds one recommendation for each record of the reply, under the
    record's identifier, in ascending order of distance: the reply is not
    capped. *)
Theorem tier2_sorted_one_per_record (T : Turf) (s : State) (lat lon : R) (status : Z)
    (d : NominatimPlace) (data : list NominatimPlace) (rnd2 rnd3 : nat -> R) :
  (forall record, In record (d :: data) -> nom_display_name record <> None) ->
  let places :=
    recommendations
      (fallbackToNominatim T s lat lon (Replied true status (Json (d :: data)))
         rnd2 rnd3) in
  ascending places /\
  Permutation (map place_id places)
              (map (fun record => IdNum (nom_place_id record)) (d :: data)) /\
  List.length places = S (List.length data).
Proof.
  intros Hnames.
  destruct (tier2_result T s lat lon status d data rnd2 rnd3 Hnames)
    as (places & Hmap & Hrec).
  cbv zeta. rewrite Hrec. split; [apply array_sort_ascending|]. split.
  - rewrite <- (array_sort_Permutation byDistance places).
    erewrite (mapFrom_map _ place_id (fun record => IdNum (nom_place_id record)));
      [reflexivity| |exact Hmap].
    intros k x y H. unfold nominatimPlace in H.
    destruct (nom_display_name x); [|discriminate]. now inversion H.
  - rewrite array_sort_length. exact (mapFrom_length _ _ _ _ Hmap).
Qed.

Lemma tier2_sorted_one_per_record_witness :
  List.length
    (recommendations
       (fallbackToNominatim Sphere.turf Sample.initialState 48.8566 2.3522
          (Replied true 200 (Json [Sample.louvre; Sample.louvre]))
          Sample.zeroDraws Sample.zeroDraws)) = 2%nat.
Proof.
  refine (proj2 (proj2 (tier2_sorted_one_per_record Sphere.turf Sample.initialState
                          48.8566 2.3522 200 Sample.louvre [Sample.louvre]
                          Sample.zeroDraws Sample.zeroDraws _))).
  intros record [<-|[<-|[]]]; discriminate.
Defined.

(** X17. One record without a display name spoils the whole of tier 2:
    the reply is abandoned and the synthetic places of tier 3 are left
    instead, whatever the other records hold. *)
Theorem tier2_record_without_name (T : Turf) (s : State) (lat lon : R) (status : Z)
    (data : list NominatimPlace) (record : NominatimPlace) (rnd2 rnd3 : nat -> R) :
  In record data ->
  nom_display_name record = None ->
  fallbackToNominatim T s lat lon (Replied true status (Json data)) rnd2 rnd3
  = createMockPlaces T s lat lon rnd3.
Proof.
  intros Hin Hnone.
  destruct data as [|d data]; [destruct Hin|].
  unfold fallbackToNominatim.
  rewrite (mapFrom_raises (nominatimPlace lat lon rnd2) (d :: data) record Hin);
    [reflexivity|].
  intros k. unfold nominatimPlace. now rewrite Hnone.
Qed.

Lemma tier2_record_without_name_witness :
  let nameless :=
    {| nom_place_id := 7; nom_display_name := None; nom_type := Some "park"%string;
       nom_lat := 48.85; nom_lon := 2.35 |} in
  List.length
    (recommendations
       (fallbackToNominatim Sphere.turf Sample.initialState 48.8566 2.3522
          (Replied true 200 (Json [Sample.louvre; nameless]))
          Sample.zeroDraws Sample.unevenDraws)) = 5%nat.
Proof.
  intros nameless.
  rewrite (tier2_record_without_name Sphere.turf Sample.initialState 48.8566 2.3522 200
             [Sample.louvre; nameless] nameless Sample.zeroDraws Sample.unevenDraws
             (or_intror (or_introl eq_refl)) eq_refl).
  reflexivity.
Defined.

Lemma pick3_defined (arr : list string) (a b c : string) (r : R) :
  arr = [a; b; c] -> 0 <= r < 1 ->
  exists v, JS.pick3 arr r = Some v /\ In v arr.
Proof.
  intros -> Hr.
  destruct (pick3_in_range a b c r Hr) as [H|[H|[H|[]]]]; rewrite <- H;
    eexists; (split; [reflexivity|]); simpl; auto.
Qed.

(** X18. With draws in [0, 1), whatever the services reply, every
    recommendation a discovery leaves has a crowd level among Less
    crowded, Moderate, Busy, a best time among Morning, Afternoon,
    Evening, the placeholder image and a category, and its distance is
    not negative. *)
Theorem discovery_metadata (T : Turf) (s : State) (lat lon : R)
    (overpass : Fetched OverpassData) (nominatim : Fetched (list NominatimPlace))
    (rnd1 rnd2 rnd3 : nat -> R) :
  (forall k, 0 <= rnd1 k < 1) ->
  (forall k, 0 <= rnd2 k < 1) ->
  (forall k, 0 <= rnd3 k < 1) ->
  Forall (fun p =>
            (exists level, place_crowdLevel p = Some level /\ In level crowdLevels) /\
            (exists time, place_bestTime p = Some time /\ In time bestTimes) /\
            place_image p = placeImage /\
            place_category p <> None /\
            0 <= place_distance p)
         (recommendations
            (fetchNearbyPlaces T s lat lon overpass nominatim rnd1 rnd2 rnd3)).
Proof.
  intros H1 H2 H3.
  destruct (fetchNearbyPlaces_cases T s lat lon overpass nominatim rnd1 rnd2 rnd3)
    as [(status & data & e & es & places & _ & _ & Hmap & ->)|[_ ->]].
  - apply Forall_forall. intros p Hp.
    cbn [recommendations setShowRecommendations setRecommendations] in Hp.
    apply array_sort_In in Hp.
    destruct (mapFrom_In _ _ _ _ _ Hmap Hp) as (i & element & _ & Hf).
    unfold overpassPlace in Hf. destruct (el_tags element); [|discriminate].
    inversion Hf; subst p; clear Hf.
    cbn [place_crowdLevel place_bestTime place_image place_category place_distance].
    split; [apply (pick3_defined _ _ _ _ _ eq_refl), H1|].
    split; [apply (pick3_defined _ _ _ _ _ eq_refl), H1|].
    split; [reflexivity|]. split; [discriminate|apply haversine_range].
  - destruct (fallbackToNominatim_cases T s lat lon nominatim rnd2 rnd3)
      as [->|(status & d & data & places & _ & Hmap & ->)].
    + cbn [recommendations createMockPlaces setShowRecommendations setRecommendations].
      unfold mockPlaces. simpl map.
      repeat (apply Forall_cons || apply Forall_nil);
        cbn [mockPlace place_crowdLevel place_bestTime place_image place_category
             place_distance];
        (split; [apply (pick3_defined _ _ _ _ _ eq_refl), H3|]);
        (split; [apply (pick3_defined _ _ _ _ _ eq_refl), H3|]);
        (split; [reflexivity|]); (split; [discriminate|]);
        match goal with |- 0 <= 0.5 + rnd3 ?k * 4.5 => specialize (H3 k); lra end.
    + apply Forall_forall. intros p Hp.
      cbn [recommendations setShowRecommendations setRecommendations] in Hp.
      apply array_sort_In in Hp.
      destruct (mapFrom_In _ _ _ _ _ Hmap Hp) as (i & record & _ & Hf).
      unfold nominatimPlace in Hf. destruct (nom_display_name record); [|discriminate].
      inversion Hf; subst p; clear Hf.
      cbn [place_crowdLevel place_bestTime place_image place_category place_distance].
      split; [apply (pick3_defined _ _ _ _ _ eq_refl), H2|].
      split; [apply (pick3_defined _ _ _ _ _ eq_refl), H2|].
      split; [reflexivity|].
      split; [|apply haversine_range].
      match goal with
      | |- JS.pick3 _ ?r <> None =>
          destruct (pick3_in_range "Historical" "Cultural" "Nature" r (H2 _))
            as [H|[H|[H|[]]]]; rewrite <- H; discriminate
      end.
Qed.

Lemma discovery_metadata_witness :
  Forall (fun p => place_image p = placeImage /\ 0 <= place_distance p)
         (recommendations
            (fetchNearbyPlaces Sphere.turf Sample.initialState 37.7749 (-122.4194)
               NetworkError NetworkError
               Sample.zeroDraws Sample.zeroDraws Sample.unevenDraws)).
Proof.
  eapply Forall_impl;
    [|exact (discovery_metadata Sphere.turf Sample.initialState 37.7749 (-122.4194)
               NetworkError NetworkError Sample.zeroDraws Sample.zeroDraws
               Sample.unevenDraws zeroDraws_range zeroDraws_range unevenDraws_range)].
  intros p (_ & _ & Himg & _ & Hd). exact (conj Himg Hd).
Defined.

(** ** Directions *)

(** X19. [handleGetDirections] either leaves the state as it is or stores
    a route; when it stores one it also signals the Route Planner
    achievement and fits the map, if mounted, to exactly the points of
    that route, and it changes nothing else. *)
Theorem handleGetDirections_outcome (T : Turf) (s : State) (reply : Fetched OsrmData) :
  let s' := handleGetDirections T s reply in
  s' = s \/
  exists r,
    s' = setAchievement (Some routePlanner)
           (withMap (FitBounds (map toLatLng (route_coordinates r)))
                    (setRoute (Some r) s)).
Proof.
  unfold handleGetDirections.
  assert (F : simulateRoute T s = s \/
              exists r,
                simulateRoute T s
                = setAchievement (Some routePlanner)
                    (withMap (FitBounds (map toLatLng (route_coordinates r)))
                             (setRoute (Some r) s))).
  { unfold simulateRoute.
    destruct (userLocation s), (selectedLocation s); try (now left).
    right. cbv zeta.
    match goal with
    | |- exists r, setAchievement _ (withMap _ (setRoute (Some ?r0) _)) = _ => exists r0
    end.
    reflexivity. }
  destruct (userLocation s), (selectedLocation s); try (now left).
  destruct reply as [|ok status [| |data]]; try exact F.
  destruct (firstRoute data) as [r|]; [|now left].
  destruct (osrm_geometry r); [|exact F].
  right. cbv zeta.
  match goal with
  | |- exists r, setAchievement _ (withMap _ (setRoute (Some ?r0) _)) = _ => exists r0
  end.
  reflexivity.
Qed.

(** X20. Of a reply with the code [Ok] only the first route is consulted.
    When it has a geometry, that geometry becomes the path, the duration
    is its seconds divided by 60 and rounded, the distance its metres
    divided by 1000 to one decimal, and the single step carries the
    rounded metres; the geodesic library is not used.  When it has no
    geometry the straight-line fallback is stored, whatever the later
    routes hold. *)
Theorem handleGetDirections_first_route (T : Turf) (s : State) (user : LatLng)
    (selected : Location) (ok : bool) (status : Z) (r : OsrmRoute)
    (others : list OsrmRoute) :
  userLocation s = Some user ->
  selectedLocation s = Some selected ->
  let reply :=
    Replied ok status (Json {| osrm_code := Some "Ok"%string;
                               osrm_routes := Some (r :: others) |}) in
  (forall coordinates,
     osrm_geometry r = Some coordinates ->
     route (handleGetDirections T s reply)
     = Some {| route_coordinates := coordinates;
               route_duration := JS.Math_round (osrm_duration r / 60);
               route_distance := JS.toFixed1 (osrm_distance r / 1000);
               route_steps :=
                 [{| step_instruction := "Head to your destination";
                     step_distance := JS.Math_round (osrm_distance r) |}] |}) /\
  (osrm_geometry r = None ->
   handleGetDirections T s reply = simulateRoute T s).
Proof.
  intros Hu Hs reply. unfold handleGetDirections. rewrite Hu, Hs. subst reply.
  cbn [firstRoute osrm_code osrm_routes String.eqb Ascii.eqb Bool.eqb].
  split.
  - intros coordinates ->. reflexivity.
  - intros ->. reflexivity.
Qed.

Lemma handleGetDirections_first_route_witness :
  route
    (handleGetDirections Sphere.turf Sample.sanFranciscoToOakland
       (Replied true 200
          (Json {| osrm_code := Some "Ok"%string;
                   osrm_routes :=
                     Some [{| osrm_geometry :=
                                Some [(-122.4194, 37.7749); (-122.2712, 37.8044)];
                              osrm_duration := 1260;
                              osrm_distance := 19500 |}] |})))
  = Some {| route_coordinates := [(-122.4194, 37.7749); (-122.2712, 37.8044)];
            route_duration := JS.Math_round (1260 / 60);
            route_distance := JS.toFixed1 (19500 / 1000);
            route_steps :=
              [{| step_instruction := "Head to your destination";
                  step_distance := JS.Math_round 19500 |}] |}.
Proof.
  exact (proj1 (handleGetDirections_first_route Sphere.turf Sample.sanFranciscoToOakland
                  (37.7749, -122.4194) Sample.oakland true 200
                  {| osrm_geometry := Some [(-122.4194, 37.7749); (-122.2712, 37.8044)];
                     osrm_duration := 1260; osrm_distance := 19500 |}
                  [] eq_refl eq_refl)
               [(-122.4194, 37.7749); (-122.2712, 37.8044)] eq_refl).
Defined.

(** X21. The transport mode plays no part in what a directions request
    does with a given reply: changing the mode and then handling the reply
    gives the state that handling the reply and then changing the mode
    gives.  In particular the fallback route, its duration included, is
    the same for driving, cycling and walking, and changing the mode
    leaves a stored route as it is. *)
Theorem directions_ignore_transport_mode (T : Turf) (s : State) (mode : string)
    (reply : Fetched OsrmData) :
  handleGetDirections T (setTransportMode mode s) reply
    = setTransportMode mode (handleGetDirections T s reply) /\
  route (simulateRoute T (setTransportMode mode s)) = route (simulateRoute T s) /\
  route (setTransportMode mode s) = route s.
Proof.
  assert (F : simulateRoute T (setTransportMode mode s)
              = setTransportMode mode (simulateRoute T s)).
  { unfold simulateRoute. cbn [userLocation selectedLocation setTransportMode].
    destruct (userLocation s), (selectedLocation s); reflexivity. }
  split; [|split; [now rewrite F|reflexivity]].
  unfold handleGetDirections. rewrite F.
  cbn [userLocation selectedLocation setTransportMode].
  destruct (userLocation s), (selectedLocation s); try reflexivity.
  destruct reply as [|ok status [| |data]]; try reflexivity.
  destruct (firstRoute data) as [r|]; [|reflexivity].
  destruct (osrm_geometry r); reflexivity.
Qed.

(** X22. The profile sent to the routing service is [car] exactly for the
    mode [driving-car], [bike] exactly for [cycling], and [foot] for every
    other mode, the [foot-walking] of the third button included. *)
Theorem routingProfile_cases (mode : string) :
  (routingProfile mode = "car"%string <-> mode = "driving-car"%string) /\
  (routingProfile mode = "bike"%string <-> mode = "cycling"%string) /\
  (routingProfile mode = "foot"%string <->
   mode <> "driving-car"%string /\ mode <> "cycling"%string).
Proof.
  unfold routingProfile.
  destruct (String.eqb_spec mode "driving-car") as [->|H1]; simpl.
  - repeat split; try discriminate; try tauto; try (intros [H _]; now elim H).
  - destruct (String.eqb_spec mode "cycling") as [->|H2].
    + repeat split; try discriminate; try tauto; try (intros [_ H]; now elim H).
    + repeat split; try discriminate; try tauto.
Qed.

(** X23. From any state and any outcome of geolocation, once a
    destination is selected a directions request that raises (the request
    fails, or its body is not JSON or is [null]) always ends with a route:
    the fallback route to that destination, with at least 6 points, and
    the achievement signalled. *)
Theorem route_after_failed_request (T : Turf) (hasInitial : bool) (s : State)
    (outcome : Geolocation) (location : Location) (reply : Fetched OsrmData) :
  reply = NetworkError \/
  (exists ok status, reply = Replied ok status NotJson) \/
  (exists ok status, reply = Replied ok status JsonNull) ->
  let located := fst (getUserLocation hasInitial s outcome) in
  let s' := handleGetDirections T (handleLocationSelect located location) reply in
  exists r,
    route s' = Some r /\
    (6 <= List.length (route_coordinates r))%nat /\
    (exists metres,
       route_steps r =
         [{| step_instruction :=
               "Head to " ++ JS.first_segment (loc_display_name location);
             step_distance := metres |}]) /\
    achievement s' = Some routePlanner /\
    selectedLocation s' = Some location.
Proof.
  intros Hreply located s'.
  destruct (getUserLocation_locates hasInitial s outcome)
    as ((lat & lon & Hu & _) & _).
  fold located in Hu.
  assert (Hu' : userLocation (handleLocationSelect located location) = Some (lat, lon))
    by exact Hu.
  assert (Hs' : selectedLocation (handleLocationSelect located location) = Some location)
    by reflexivity.
  destruct (directions_fall_back_when_raised T _ _ _ reply Hu' Hs' Hreply) as [E _].
  unfold s'. rewrite E.
  unfold simulateRoute. rewrite Hu', Hs'.
  eexists. split; [reflexivity|].
  cbn [route_coordinates route_steps].
  split; [|split; [eexists; reflexivity|now split]].
  rewrite sampledPath_length.
  match goal with |- context [stepCount ?d] => pose proof (stepCount_ge_5 d) end.
  lia.
Qed.

Lemma route_after_failed_request_witness :
  exists r,
    route
      (handleGetDirections Sphere.turf
         (handleLocationSelect
            (fst (getUserLocation false Sample.initialState GeoUnsupported))
            Sample.oakland)
         NetworkError) = Some r /\
    (6 <= List.length (route_coordinates r))%nat.
Proof.
  destruct (route_after_failed_request Sphere.turf false Sample.initialState
              GeoUnsupported Sample.oakland NetworkError (or_introl eq_refl))
    as (r & Hr & Hlen & _).
  exists r. exact (conj Hr Hlen).
Defined.

(** X24. Closing the box of the destination clears the destination and
    nothing else: a stored route stays, and so does the line drawn for it;
    from then on a directions request does nothing until a destination is
    selected again. *)
Theorem closeLocationInfo_keeps_route (T : Turf) (s : State) (reply : Fetched OsrmData) :
  let s' := closeLocationInfo s in
  selectedLocation s' = None /\
  route s' = route s /\
  polyline s' = polyline s /\
  handleGetDirections T s' reply = s' /\
  simulateRoute T s' = s'.
Proof.
  cbv zeta. split; [reflexivity|]. split; [reflexivity|]. split; [reflexivity|].
  unfold handleGetDirections, simulateRoute. cbn [closeLocationInfo selectedLocation
    setSelectedLocation userLocation].
  destruct (userLocation s); split; reflexivity.
Qed.

(** X25. Selecting a destination starts one discovery, around the
    destination and not around the user.  Whatever the services reply, the
    selection and the cleared route survive it; when both services come up
    empty, the synthetic places are projected from the destination. *)
Theorem selection_discovers_around_destination (T : Turf) (env : Services) (s : State)
    (location : Location) :
  let s1 := handleLocationSelect s location in
  let s2 := fold_left (runEffect T env) (selectedLocationEffect s1) s1 in
  selectedLocationEffect s1
    = [FetchNearbyPlacesCall (loc_lat location) (loc_lon location)] /\
  selectedLocation s2 = Some location /\
  route s2 = None /\
  userLocation s2 = userLocation s /\
  showRecommendations s2 = true /\
  (overpassYieldsNothing (overpassReply env) = true ->
   nominatimYieldsNothing (nominatimReply env) = true ->
   recommendations s2 = mockPlaces T (loc_lat location) (loc_lon location) (draws3 env)).
Proof.
  cbv zeta. split; [reflexivity|].
  cbn [selectedLocationEffect handleLocationSelect selectedLocation setSelectedLocation
       setPosition withMap setRoute fold_left runEffect].
  match goal with
  | |- context [fetchNearbyPlaces T ?s0 ?a ?b ?o ?n ?r1 ?r2 ?r3] =>
      destruct (fetchNearbyPlaces_shows T s0 a b o n r1 r2 r3) as (H1 & H2 & _ & H4 & H5);
      rewrite H1, H2, H4, H5
  end.
  split; [reflexivity|]. split; [reflexivity|]. split; [reflexivity|].
  split; [reflexivity|].
  intros Ho Hn. rewrite (discovery_reaches_tier3 _ _ _ _ _ _ _ _ _ Ho Hn). reflexivity.
Qed.

(** ** The initial place *)

(** The handlers told apart by state agree with the handlers when the
    render that created them is the current one. *)
Lemma handlers_of_current_render (T : Turf) (s : State) (reply : Fetched OsrmData) :
  simulateRouteFrom T s s = simulateRoute T s /\
  handleGetDirectionsFrom T s s reply = handleGetDirections T s reply.
Proof. split; reflexivity. Qed.

Lemma first_segment_app (name rest : string) :
  (forall c, In c (list_ascii_of_string name) -> c <> ","%char) ->
  JS.first_segment (name ++ String "," rest) = name.
Proof.
  induction name as [|c name IH]; simpl; intros Hno.
  - reflexivity.
  - destruct (Ascii.eqb_spec c ","%char) as [->|Hc].
    + exfalso. apply (Hno ","%char); auto.
    + f_equal. apply IH. intros c' Hin. apply Hno. now right.
Qed.

(** X26. The effect on a supplied initial place runs once.  It selects
    the place under the display name [name, description], at the
    coordinates of the place, centres the position on it, leaves no route
    behind whether one was held or not, and lowers the flag; run again
    with the lowered flag it changes nothing and starts no timer.  When
    the name of the place has no comma, the first segment of the display
    name, which the fallback route quotes, is that name. *)
Theorem initialPlaceEffect_runs_once (place : InitialPlace) (s : State) :
  let '(s1, flag, timers) := initialPlaceEffect (Some place) true s in
  (exists selected,
     selectedLocation s1 = Some selected /\
     loc_display_name selected = (ip_name place ++ ", " ++ ip_description place)%string /\
     loc_lat selected = ip_lat place /\ loc_lon selected = ip_lng place /\
     ((forall c, In c (list_ascii_of_string (ip_name place)) -> c <> ","%char) ->
      JS.first_segment (loc_display_name selected) = ip_name place)) /\
  position s1 = (ip_lat place, ip_lng place) /\
  route s1 = None /\
  userLocation s1 = userLocation s /\
  flag = false /\
  timers = [DirectionsTimer s] /\
  initialPlaceEffect (Some place) flag s1 = (s1, flag, []).
Proof.
  unfold initialPlaceEffect.
  split.
  { eexists. split; [destruct (route s); reflexivity|].
    cbn [loc_display_name loc_lat loc_lon].
    split; [reflexivity|]. split; [reflexivity|]. split; [reflexivity|].
    intros Hno. now apply first_segment_app. }
  destruct (route s) eqn:E; cbn; rewrite ?E; now repeat split.
Qed.

(** X27. The directions request that the effect schedules is the one of
    the render in which the effect ran.  When no destination was selected
    in that render, as on mount, the timer does nothing: whenever it
    fires, in whatever state and whatever the routing service would
    reply, the state is left as it is and no route to the initial place is
    stored. *)
Theorem initial_directions_use_stale_selection (T : Turf) (place : InitialPlace)
    (s : State) :
  selectedLocation s = None ->
  let '(s1, _, timers) := initialPlaceEffect (Some place) true s in
  selectedLocation s1 <> None /\
  route s1 = None /\
  forall timer current reply,
    In timer timers -> fireTimer T timer current reply = current.
Proof.
  intros Hsel. unfold initialPlaceEffect.
  split; [destruct (route s); discriminate|].
  split; [destruct (route s) eqn:E; cbn; rewrite ?E; reflexivity|].
  intros timer current reply [<-|[]].
  unfold fireTimer, handleGetDirectionsFrom. rewrite Hsel.
  destruct (userLocation s); reflexivity.
Qed.

Lemma initial_directions_use_stale_selection_witness :
  let mounted := setUserLocation (Some (37.7749, -122.4194)) Sample.initialState in
  let place :=
    {| ip_id := 12; ip_name := "Golden Gate Bridge"; ip_description := "Landmark";
       ip_lat := 37.8199; ip_lng := -122.4783 |} in
  let '(s1, _, timers) := initialPlaceEffect (Some place) true mounted in
  forall timer, In timer timers -> fireTimer Sphere.turf timer s1 NetworkError = s1.
Proof.
  intros mounted place.
  pose proof (initial_directions_use_stale_selection Sphere.turf place mounted eq_refl)
    as H.
  cbv beta iota zeta delta [initialPlaceEffect] in H |- *.
  destruct H as (_ & _ & H).
  intros timer Hin. now apply H.
Defined.

(** X28. When a destination was already selected in the render of the
    effect, the scheduled request is made for that earlier destination:
    if it raises, the fallback route stored is the one from the render's
    user location to the earlier destination, not to the initial place. *)
Theorem initial_directions_go_to_earlier_selection (T : Turf) (place : InitialPlace)
    (s : State) (user : LatLng) (earlier : Location) :
  userLocation s = Some user ->
  selectedLocation s = Some earlier ->
  let '(s1, _, timers) := initialPlaceEffect (Some place) true s in
  timers = [DirectionsTimer s] /\
  route (fireTimer T (DirectionsTimer s) s1 NetworkError)
    = route (simulateRoute T s) /\
  exists r,
    route (fireTimer T (DirectionsTimer s) s1 NetworkError) = Some r /\
    route_coordinates r
      = sampledPath T ((snd user, fst user), (loc_lon earlier, loc_lat earlier))
          (turf_length T ((snd user, fst user), (loc_lon earlier, loc_lat earlier)))
          (stepCount
             (turf_length T ((snd user, fst user), (loc_lon earlier, loc_lat earlier)))).
Proof.
  intros Hu Hs. unfold initialPlaceEffect.
  split; [reflexivity|].
  unfold fireTimer, handleGetDirectionsFrom, simulateRouteFrom, simulateRoute.
  rewrite Hu, Hs. split; [reflexivity|].
  eexists. split; reflexivity.
Qed.

Lemma initial_directions_go_to_earlier_selection_witness :
  let place :=
    {| ip_id := 12; ip_name := "Golden Gate Bridge"; ip_description := "Landmark";
       ip_lat := 37.8199; ip_lng := -122.4783 |} in
  let '(s1, _, _) := initialPlaceEffect (Some place) true Sample.sanFranciscoToOakland in
  route (fireTimer Sphere.turf (DirectionsTimer Sample.sanFranciscoToOakland) s1
           NetworkError)
  = route (simulateRoute Sphere.turf Sample.sanFranciscoToOakland).
Proof.
  intros place.
  pose proof (initial_directions_go_to_earlier_selection Sphere.turf place
                Sample.sanFranciscoToOakland (37.7749, -122.4194) Sample.oakland
                eq_refl eq_refl) as H.
  cbv beta iota zeta delta [initialPlaceEffect] in H |- *.
  exact (proj1 (proj2 H)).
Defined.

(** ** The drawn route *)

(** X29. The line drawn for a fallback route joins the two markers: with
    a geodesic library that walks a line from its first to its last
    vertex, the line starts on the user location and, when the straight
    line has some length, ends on the destination; the map, if mounted,
    is fitted to exactly the points of the line. *)
Theorem fallback_line_joins_markers (T : Turf) (s : State) (user : LatLng)
    (selected : Location) :
  userLocation s = Some user ->
  selectedLocation s = Some selected ->
  along_reaches_ends T ->
  exists line,
    polyline (simulateRoute T s) = Some line /\
    nth_error line 0 = Some user /\
    (0 < turf_length T ((snd user, fst user), (loc_lon selected, loc_lat selected)) ->
     nth_error line (List.length line - 1) = Some (loc_lat selected, loc_lon selected)) /\
    mapRef (simulateRoute T s) = option_map (fun _ => FitBounds line) (mapRef s).
Proof.
  intros Hu Hs [Hfirst Hlast].
  set (line := ((snd user, fst user), (loc_lon selected, loc_lat selected))).
  set (L := turf_length T line).
  pose proof (stepCount_ge_5 L) as Hn.
  exists (map toLatLng (sampledPath T line L (stepCount L))).
  unfold polyline, simulateRoute. rewrite Hu, Hs.
  cbn [route setAchievement withMap setRoute route_coordinates mapRef].
  fold line. fold L.
  split; [reflexivity|]. split; [|split].
  - rewrite nth_error_map, sampledPath_nth by lia.
    rewrite sample_first, Hfirst. destruct user; reflexivity.
  - intros Hpos. rewrite length_map, sampledPath_length.
    replace (S (Z.to_nat (stepCount L)) - 1)%nat with (Z.to_nat (stepCount L)) by lia.
    rewrite nth_error_map, sampledPath_nth by lia.
    rewrite sample_last by lia.
    unfold toLatLng. f_equal.
    change (turf_along T line L) with (turf_along T line (turf_length T line)).
    rewrite (Hlast line Hpos). reflexivity.
  - now destruct (mapRef s).
Qed.

Lemma fallback_line_joins_markers_witness :
  exists line,
    polyline (simulateRoute Sphere.turf Sample.alongEquator) = Some line /\
    nth_error line 0 = Some (0, 0) /\
    nth_error line (List.length line - 1) = Some (0, 100).
Proof.
  destruct (fallback_line_joins_markers Sphere.turf Sample.alongEquator (0, 0)
              Sample.equatorEast eq_refl eq_refl Sphere_along_reaches_ends)
    as (line & Hline & H0 & Hlast & _).
  exists line. split; [exact Hline|]. split; [exact H0|].
  apply Hlast. simpl fst; simpl snd; simpl loc_lon; simpl loc_lat.
  rewrite equator_line_length. pose proof PI_bounds. lra.
Defined.
